(** * Trending-video ingestion pipeline (sprint_12_trending_youtube_rev_1.py)

    A shallow embedding of the script and the properties of its specification.

    Conventions of the embedding.
    - A Python [str] is a [string]: a sequence of code points below 256.  The
      loader decodes its files as Latin-1, so every cell read from a file is in
      this range; in it, the decimal digits of [\d] and of [int()] are the
      ASCII digits.
    - A Python call that may raise returns an [outcome]: [Ok v] or [Raise e].
      [try]/[except] is a [match] on the outcome.
    - What the script takes from pandas, the file system and the data base is
      either modelled after the library's documented behaviour (the numeric
      coercion, [getopt], the [LIKE] query) or taken as a section variable
      ([read_csv], [to_datetime]). *)

From Stdlib Require Import String Ascii List ZArith QArith Lia Bool DecimalString.
Import ListNotations.

Local Open Scope string_scope.
Local Open Scope list_scope.
Local Open Scope Z_scope.

(** ** Exceptions and outcomes *)

Inductive exn : Type :=
| FileNotFoundError
| ValueError            (* also pandas' IntCastingNaNError, OutOfBoundsDatetime, ParserError *)
| IndexError
| TypeError
| AttributeError
| GetoptError
| OperationalError (msg : string)
| OtherException        (* any other subclass of Exception *)
| KeyboardInterrupt     (* BaseException, not Exception *)
| SystemExit (code : Z). (* BaseException, not Exception *)

(** [except Exception] catches exactly these. *)
Definition is_Exception (e : exn) : bool :=
  match e with
  | KeyboardInterrupt | SystemExit _ => false
  | _ => true
  end.

Inductive outcome (A : Type) : Type :=
| Ok (a : A)
| Raise (e : exn).
Arguments Ok {A} a.
Arguments Raise {A} e.

Definition bind {A B : Type} (m : outcome A) (k : A -> outcome B) : outcome B :=
  match m with
  | Ok a => k a
  | Raise e => Raise e
  end.

Notation "x <- m ;; k" := (bind m (fun x => k))
  (at level 61, m at next level, right associativity).

(** ** Characters and strings *)

Definition newline : ascii := ascii_of_nat 10.

Definition is_digit (c : ascii) : bool :=
  let n := nat_of_ascii c in (48 <=? n)%nat && (n <=? 57)%nat.

Definition digit_value (c : ascii) : Z := Z.of_nat (nat_of_ascii c) - 48.

(** White space that [int()] skips: the C white space and, of the code points
    from 128 to 255, NEL and the no-break space. *)
Definition is_py_space (c : ascii) : bool :=
  let n := nat_of_ascii c in
  ((9 <=? n)%nat && (n <=? 13)%nat) || (n =? 32)%nat || (n =? 133)%nat || (n =? 160)%nat.

(** White space of the C parsers ([isspace] in the C locale). *)
Definition is_c_space (c : ascii) : bool :=
  let n := nat_of_ascii c in
  ((9 <=? n)%nat && (n <=? 13)%nat) || (n =? 32)%nat.

(** [s.startswith(p)], returning what follows the prefix. *)
Fixpoint strip_prefix (p s : string) : option string :=
  match p, s with
  | EmptyString, _ => Some s
  | String a p', String b s' => if Ascii.eqb a b then strip_prefix p' s' else None
  | String _ _, EmptyString => None
  end.

(** [s.split(sep)] for a one-character separator: never the empty list. *)
Fixpoint split (sep : ascii) (s : string) : list string :=
  match s with
  | EmptyString => [EmptyString]
  | String c t =>
      if Ascii.eqb c sep then EmptyString :: split sep t
      else match split sep t with
           | h :: r => String c h :: r
           | [] => [String c EmptyString]
           end
  end.

(** [l[i]] with Python's negative indices. *)
Definition getitem {A : Type} (l : list A) (i : Z) : outcome A :=
  let n := Z.of_nat (List.length l) in
  let j := if i <? 0 then i + n else i in
  if (j <? 0) || (n <=? j) then Raise IndexError
  else match nth_error l (Z.to_nat j) with
       | Some x => Ok x
       | None => Raise IndexError
       end.

(** [s[-k:]]: the last [k] characters, the whole string when it is shorter. *)
Definition last_chars (k : nat) (s : string) : string :=
  substring (String.length s - k) k s.

Fixpoint lstrip (sp : ascii -> bool) (s : string) : string :=
  match s with
  | EmptyString => EmptyString
  | String c t => if sp c then lstrip sp t else s
  end.

(** ** [int(str)] in base 10

    As CPython's [PyLong_FromString]: leading white space, an optional sign,
    a run of digits and underscores that neither starts nor ends with an
    underscore nor holds two in a row, trailing white space, the end. *)

Definition is_underscore (c : ascii) : bool := Ascii.eqb c "_".

(** The longest prefix of characters satisfying [p], and the rest. *)
Fixpoint span (p : ascii -> bool) (s : string) : string * string :=
  match s with
  | EmptyString => (EmptyString, EmptyString)
  | String c t =>
      if p c then let (a, b) := span p t in (String c a, b)
      else (EmptyString, s)
  end.

Definition digit_or_underscore (c : ascii) : bool := is_digit c || is_underscore c.

(** [prev_us]: the previous character was an underscore (or there was none). *)
Fixpoint valid_body (prev_us : bool) (s : string) : bool :=
  match s with
  | EmptyString => negb prev_us
  | String c t =>
      if is_underscore c then negb prev_us && valid_body true t
      else valid_body false t
  end.

Fixpoint digits_value (acc : Z) (s : string) : Z :=
  match s with
  | EmptyString => acc
  | String c t =>
      if is_underscore c then digits_value acc t
      else digits_value (10 * acc + digit_value c) t
  end.

Definition take_sign (s : string) : Z * string :=
  match s with
  | String c t =>
      if Ascii.eqb c "+" then (1, t)
      else if Ascii.eqb c "-" then (-1, t)
      else (1, s)
  | EmptyString => (1, s)
  end.

Definition py_int (s : string) : outcome Z :=
  let (sign, s2) := take_sign (lstrip is_py_space s) in
  let (body, rest) := span digit_or_underscore s2 in
  if valid_body true body && String.eqb (lstrip is_py_space rest) EmptyString
  then Ok (sign * digits_value 0 body)
  else Raise ValueError.

(** The texts [int()] accepts, as a grammar: white space, an optional sign,
    groups of digits separated by single underscores, white space. *)
Inductive digit_groups : string -> Prop :=
| dg_last (d : ascii) :
    is_digit d = true -> digit_groups (String d EmptyString)
| dg_next (d : ascii) (s : string) :
    is_digit d = true -> digit_groups s -> digit_groups (String d s)
| dg_sep (d : ascii) (s : string) :
    is_digit d = true -> digit_groups s -> digit_groups (String d (String "_" s)).

Fixpoint string_forall (p : ascii -> bool) (s : string) : bool :=
  match s with
  | EmptyString => true
  | String c t => p c && string_forall p t
  end.

Definition int_literal (s : string) : Prop :=
  exists l sg body r,
    s = (l ++ sg ++ body ++ r)%string
    /\ string_forall is_py_space l = true
    /\ (sg = EmptyString \/ sg = "+" \/ sg = "-")
    /\ digit_groups body
    /\ string_forall is_py_space r = true.

(** Four characters as a text. *)
Definition four (a b c d : ascii) : string :=
  String a (String b (String c (String d EmptyString))).

(** ** The file-name pattern

    [trending_by_time_(\d{4})\.csv$] tried at the start of [s].  [$] holds at
    the end of the string and before a newline that ends it. *)

Definition at_dollar (s : string) : bool :=
  match s with
  | EmptyString => true
  | String c EmptyString => Ascii.eqb c newline
  | _ => false
  end.

Definition pattern_here (s : string) : option string :=
  match strip_prefix "trending_by_time_" s with
  | Some (String a (String b (String c (String d r)))) =>
      if is_digit a && is_digit b && is_digit c && is_digit d then
        match strip_prefix ".csv" r with
        | Some r' =>
            if at_dollar r'
            then Some (String a (String b (String c (String d EmptyString))))
            else None
        | None => None
        end
      else None
  | _ => None
  end.

(** [re.search(pattern, s)]: the leftmost position where the pattern matches;
    the result is group 1. *)
Fixpoint re_search (s : string) : option string :=
  match pattern_here s with
  | Some g => Some g
  | None =>
      match s with
      | EmptyString => None
      | String _ t => re_search t
      end
  end.

(** [re.match(pattern, s)]: the pattern at the start of [s] only. *)
Definition re_match (s : string) : option string := pattern_here s.

(** ** extract_year_from_path *)

(** [file_path.split('/')[-1].split('.')[0]]: the stem of the file name. *)
Definition fallback_stem (file_path : string) : outcome string :=
  name <- getitem (split "/" file_path) (-1) ;;
  getitem (split "." name) 0.

(** [...[-4:]] *)
Definition fallback_text (file_path : string) : outcome string :=
  stem <- fallback_stem file_path ;;
  Ok (last_chars 4 stem).

(** The text ends in four digits. *)
Definition ends_with_four_digits (s : string) : bool :=
  match last_chars 4 s with
  | String a (String b (String c (String d EmptyString))) =>
      is_digit a && is_digit b && is_digit c && is_digit d
  | _ => false
  end.

Definition fallback_year (file_path : string) : outcome Z :=
  year_str <- fallback_text file_path ;;
  py_int year_str.

Definition extract_year_from_path (file_path : string) : outcome (option Z) :=
  match re_search file_path with
  | Some g => y <- py_int g ;; Ok (Some y)
  | None =>
      match fallback_year file_path with
      | Ok y => Ok (Some y)
      | Raise ValueError | Raise IndexError => Ok None
      | Raise e => Raise e
      end
  end.

(** ** getopt.getopt and parse_arguments

    [getopt] follows the standard library's module.  Its loop drops one or two
    arguments per turn; here the turn that took the next argument as an option
    value passes [skip = true] to the turn after it. *)

Definition opts : Type := list (string * string).

Fixpoint short_has_arg (opt : ascii) (shortopts : string) : outcome bool :=
  match shortopts with
  | EmptyString => Raise GetoptError
  | String c t =>
      if Ascii.eqb opt c && negb (Ascii.eqb c ":")
      then Ok (match t with String d _ => Ascii.eqb d ":" | EmptyString => false end)
      else short_has_arg opt t
  end.

(** [next] is [args[0]] when there is one; the boolean tells whether it was
    taken as the option's value. *)
Fixpoint do_shorts (shortopts optstring : string) (next : option string)
  : outcome (opts * bool) :=
  match optstring with
  | EmptyString => Ok ([], false)
  | String opt rest =>
      has <- short_has_arg opt shortopts ;;
      let name := String "-" (String opt EmptyString) in
      if has then
        match rest, next with
        | EmptyString, None => Raise GetoptError
        | EmptyString, Some a => Ok ([(name, a)], true)
        | _, _ => Ok ([(name, rest)], false)
        end
      else
        r <- do_shorts shortopts rest next ;;
        Ok ((name, EmptyString) :: fst r, snd r)
  end.

Definition starts_with (p s : string) : bool :=
  match strip_prefix p s with Some _ => true | None => false end.

Definition ends_with_eq (s : string) : bool :=
  match last_chars 1 s with String c EmptyString => Ascii.eqb c "=" | _ => false end.

Definition mem_string (x : string) (l : list string) : bool :=
  existsb (String.eqb x) l.

Definition long_has_args (opt : string) (longopts : list string)
  : outcome (bool * string) :=
  let possibilities := filter (starts_with opt) longopts in
  match possibilities with
  | [] => Raise GetoptError
  | unique :: more =>
      if mem_string opt possibilities then Ok (false, opt)
      else if mem_string (opt ++ "=")%string possibilities then Ok (true, opt)
      else match more with
           | _ :: _ => Raise GetoptError
           | [] =>
               if ends_with_eq unique
               then Ok (true, substring 0 (String.length unique - 1) unique)
               else Ok (false, unique)
           end
  end.

(** [opt.index('=')]: the text before the first [=] and, when there is one,
    the text after it. *)
Fixpoint split_eq (s : string) : string * option string :=
  match s with
  | EmptyString => (EmptyString, None)
  | String c t =>
      if Ascii.eqb c "=" then (EmptyString, Some t)
      else let (a, b) := split_eq t in (String c a, b)
  end.

Definition do_longs (longopts : list string) (opt : string) (next : option string)
  : outcome (opts * bool) :=
  let (opt1, optarg) := split_eq opt in
  r <- long_has_args opt1 longopts ;;
  let (has_arg, full) := r in
  let name := ("--" ++ full)%string in
  if has_arg then
    match optarg, next with
    | Some v, _ => Ok ([(name, v)], false)
    | None, Some a => Ok ([(name, a)], true)
    | None, None => Raise GetoptError
    end
  else
    match optarg with
    | Some _ => Raise GetoptError
    | None => Ok ([(name, EmptyString)], false)
    end.

Fixpoint getopt_loop (shortopts : string) (longopts : list string)
  (args : list string) (skip : bool) : outcome (opts * list string) :=
  match args with
  | [] => Ok ([], [])
  | a :: rest =>
      if skip then getopt_loop shortopts longopts rest false
      else if starts_with "-" a && negb (String.eqb a "-") then
        if String.eqb a "--" then Ok ([], rest)
        else
          r <- (if starts_with "--" a
                then do_longs longopts (substring 2 (String.length a - 2) a) (hd_error rest)
                else do_shorts shortopts (substring 1 (String.length a - 1) a) (hd_error rest)) ;;
          r2 <- getopt_loop shortopts longopts rest (snd r) ;;
          Ok (fst r ++ fst r2, snd r2)
      else Ok ([], args)
  end.

Definition getopt (args : list string) (shortopts : string) (longopts : list string)
  : outcome (opts * list string) :=
  getopt_loop shortopts longopts args false.

Definition unixOptions : string := "f:".
Definition gnuOptions : list string := ["file="].

(** [argv] is [sys.argv].  [sys.exit(2)] raises [SystemExit 2]. *)
Definition parse_arguments (argv : list string) : outcome string :=
  let argumentList := tl argv in
  match getopt argumentList unixOptions gnuOptions with
  | Ok (arguments, _) =>
      Ok (fold_left
            (fun file_path '(currentArgument, currentValue) =>
               if String.eqb currentArgument "-f" || String.eqb currentArgument "--file"
               then currentValue else file_path)
            arguments EmptyString)
  | Raise GetoptError => Raise (SystemExit 2)
  | Raise e => Raise e
  end.

(** ** Numbers of a column

    A finite binary64 number is the rational it stands for. *)

Inductive float64 : Type :=
| Finite (q : Q)
| PosInf
| NegInf
| NaN.

(** The integer nearest to [num / den] ([den > 0]), ties to the even one. *)
Definition rne (num den : Z) : Z :=
  let q := num / den in
  let r := num mod den in
  match 2 * r ?= den with
  | Lt => q
  | Gt => q + 1
  | Eq => if Z.even q then q else q + 1
  end.

(** [floor (log2 (num / den))] for positive [num] and [den]. *)
Definition floor_log2 (num den : Z) : Z :=
  let k := Z.log2 num - Z.log2 den in
  if 0 <=? k
  then (if den * 2 ^ k <=? num then k else k - 1)
  else (if den <=? num * 2 ^ (- k) then k else k - 1).

(** Rounding to the nearest binary64 number, ties to even: 53 significant
    bits, least exponent -1074, overflow to an infinity from 2^1024 on.  An
    integer of magnitude at most 2^53 is a binary64 number. *)
Definition round64 (q : Q) : float64 :=
  let n := Qnum q in
  let d := Zpos (Qden q) in
  if (d =? 1) && (Z.abs n <=? 2 ^ 53) then Finite (n # 1)
  else if n =? 0 then Finite 0
  else
    let e := Z.max (floor_log2 (Z.abs n) d - 52) (-1074) in
    let m := if 0 <=? e then rne n (d * 2 ^ e) else rne (n * 2 ^ (- e)) d in
    if 2 ^ (1024 - e) <=? Z.abs m
    then (if 0 <? n then PosInf else NegInf)
    else Finite (if 0 <=? e then (m * 2 ^ e) # 1 else Qred (m # Z.to_pos (2 ^ (- e)))).

Definition int64_min : Z := - 2 ^ 63.
Definition int64_max : Z := 2 ^ 63 - 1.

Definition uint64_max : Z := 2 ^ 64 - 1.

Definition in_int64 (z : Z) : bool := (int64_min <=? z) && (z <=? int64_max).

(** The integers an array of 64-bit integers can hold, signed or unsigned. *)
Definition in_64bit (z : Z) : bool := (int64_min <=? z) && (z <=? uint64_max).

(** The C cast of a double to a 64-bit integer: the fraction is dropped
    (rounding toward zero).  Out of range the cast is undefined in C; the
    value here is the one x86-64 produces. *)
Definition truncate (q : Q) : Z := Z.quot (Qnum q) (Zpos (Qden q)).

Definition cast_int64 (q : Q) : Z :=
  let z := truncate q in
  if in_int64 z then z else int64_min.

(** *** The numeric parser of [pd.to_numeric]

    pandas' [floatify]: C white space, a sign, digits, a fraction, an exponent,
    C white space; otherwise one of the spellings of infinity.  [maybe_int]
    tells that neither a point nor an exponent was read.  The value of the
    decimal is taken correctly rounded; one that overflows binary64 is
    rejected, as the parser does (ERANGE). *)

Definition c_sign (s : string) : bool * string :=
  match s with
  | String c t =>
      if Ascii.eqb c "-" then (true, t)
      else if Ascii.eqb c "+" then (false, t)
      else (false, s)
  | EmptyString => (false, s)
  end.

(** The sign as a decimal text writes it. *)
Definition sign_text (neg : bool) : string := if neg then "-" else EmptyString.

Definition is_exp_char (c : ascii) : bool := Ascii.eqb c "e" || Ascii.eqb c "E".

(** What follows the mantissa: the exponent when [e] is followed by digits
    (else the [e] is not consumed), and the rest. *)
Definition scan_exponent (s : string) : bool * Z * string :=
  match s with
  | String c t =>
      if is_exp_char c then
        let (neg, t1) := c_sign t in
        let (ds, r) := span is_digit t1 in
        match ds with
        | EmptyString => (true, 0, s)
        | _ => (true, (if neg then - digits_value 0 ds else digits_value 0 ds), r)
        end
      else (false, 0, s)
  | EmptyString => (false, 0, s)
  end.

(** The decimal [(-1)^neg * mantissa * 10^exp10] as a rational. *)
Definition decimal_value (neg : bool) (mantissa exp10 : Z) : Q :=
  let m := if neg then - mantissa else mantissa in
  if 0 <=? exp10 then (m * 10 ^ exp10) # 1
  else m # Z.to_pos (10 ^ (- exp10)).

Definition parse_decimal (s : string) : option (float64 * bool) :=
  let (neg, s2) := c_sign (lstrip is_c_space s) in
  let (ip, s3) := span is_digit s2 in
  let '(has_dot, fp, s4) :=
    match s3 with
    | String c t =>
        if Ascii.eqb c "." then let (f, r) := span is_digit t in (true, f, r)
        else (false, EmptyString, s3)
    | EmptyString => (false, EmptyString, s3)
    end in
  match (ip ++ fp)%string with
  | EmptyString => None
  | digits =>
      let '(has_exp, ex, s5) := scan_exponent s4 in
      if String.eqb (lstrip is_c_space s5) EmptyString then
        match round64 (decimal_value neg (digits_value 0 digits)
                         (ex - Z.of_nat (String.length fp))) with
        | Finite q => Some (Finite q, negb has_dot && negb has_exp)
        | _ => None
        end
      else None
  end.

Definition lower (c : ascii) : ascii :=
  let n := nat_of_ascii c in
  if (65 <=? n)%nat && (n <=? 90)%nat then ascii_of_nat (n + 32) else c.

Fixpoint lower_string (s : string) : string :=
  match s with
  | EmptyString => EmptyString
  | String c t => String (lower c) (lower_string t)
  end.

Definition parse_infinity (s : string) : option float64 :=
  let l := lower_string s in
  if String.eqb l "inf" || String.eqb l "+inf"
     || String.eqb l "infinity" || String.eqb l "+infinity" then Some PosInf
  else if String.eqb l "-inf" || String.eqb l "-infinity" then Some NegInf
  else None.

Definition floatify (s : string) : option (float64 * bool) :=
  match parse_decimal s with
  | Some r => Some r
  | None =>
      match parse_infinity s with
      | Some f => Some (f, false)
      | None => None
      end
  end.

(** ** Cells and tables *)

(** A civil date; [strftime('%Y-%m-%d')] reads nothing else of a time stamp.
    The years of a pandas time stamp lie between 1677 and 2262. *)
Record timestamp : Type := { ts_year : nat; ts_month : nat; ts_day : nat }.

(** The cells of a table read from CSV and of its normalized form: texts,
    integers, floats, and what [to_datetime] makes of a date.  (A column of
    booleans is not modelled.) *)
Inductive value : Type :=
| VStr (s : string)
| VInt (z : Z)
| VFloat (f : float64)     (* [VFloat NaN] is the missing value *)
| VTimestamp (t : timestamp)
| VNaT.

(** A DataFrame: its columns in order, each a label and the cells of the rows.
    Labels are unique in a table read from CSV (the reader renames a repeated
    header). *)
Definition DataFrame : Type := list (string * list value).

Definition columns (df : DataFrame) : list string := map fst df.

Definition nrows (df : DataFrame) : nat :=
  match df with
  | [] => 0%nat
  | (_, cells) :: _ => List.length cells
  end.

(** [df.empty]: no column or no row.  [pd.DataFrame()] is [[]]. *)
Definition df_empty (df : DataFrame) : bool :=
  match df with
  | [] => true
  | _ => (nrows df =? 0)%nat
  end.

Definition empty_DataFrame : DataFrame := [].

Fixpoint get_column (name : string) (df : DataFrame) : option (list value) :=
  match df with
  | [] => None
  | (n, cells) :: rest => if String.eqb n name then Some cells else get_column name rest
  end.

(** [df[name] = cells] for a label the table has. *)
Fixpoint set_column (name : string) (cells : list value) (df : DataFrame) : DataFrame :=
  match df with
  | [] => []
  | (n, old) :: rest =>
      (n, if String.eqb n name then cells else old) :: set_column name cells rest
  end.

(** *** [pd.to_numeric(col, errors='coerce').fillna(0).astype(int)] *)

(** What one cell contributes in [maybe_convert_numeric]: an integer that
    an array of 64-bit integers can hold, signed or unsigned, or a float.  An
    integer outside both ranges is carried as a float. *)
Inductive numcell : Type :=
| NInt (z : Z)
| NFloat (f : float64).

Definition classify (v : value) : numcell :=
  match v with
  | VInt z => if in_64bit z then NInt z else NFloat (round64 (inject_Z z))
  | VFloat f => NFloat f
  | VStr EmptyString => NFloat NaN
  | VStr s =>
      match floatify s with
      | Some (f, true) =>
          match py_int s with
          | Ok z => if in_64bit z then NInt z else NFloat f
          | Raise _ => NFloat NaN
          end
      | Some (f, false) => NFloat f
      | None => NFloat NaN
      end
  | VTimestamp _ | VNaT => NFloat NaN
  end.

Inductive numeric_array : Type :=
| IntArray (l : list Z)       (* int64 *)
| UIntArray (l : list Z)      (* uint64 *)
| FloatArray (l : list float64).

Definition is_NInt (c : numcell) : bool :=
  match c with NInt _ => true | NFloat _ => false end.

(** A negative integer ([seen.sint_]), and one above the signed range
    ([seen.uint_]). *)
Definition is_sint (c : numcell) : bool :=
  match c with NInt z => z <? 0 | NFloat _ => false end.

Definition is_uint (c : numcell) : bool :=
  match c with NInt z => int64_max <? z | NFloat _ => false end.

Definition int_of (c : numcell) : Z :=
  match c with NInt z => z | NFloat _ => 0 end.

Definition to_float (c : numcell) : float64 :=
  match c with NInt z => round64 (inject_Z z) | NFloat f => f end.

(** The result is a float array when a cell is a float, or when the integers
    fit neither 64-bit range together (a negative one beside one above the
    signed range); an unsigned array when all are integers and one lies above
    the signed range; a signed array otherwise. *)
Definition to_numeric (col : list value) : numeric_array :=
  let cells := map classify col in
  if forallb is_NInt cells && negb (existsb is_sint cells && existsb is_uint cells)
  then (if existsb is_uint cells then UIntArray (map int_of cells)
        else IntArray (map int_of cells))
  else FloatArray (map to_float cells).

Definition fillna0 (f : float64) : float64 :=
  match f with NaN => Finite 0 | _ => f end.

Definition fillna (a : numeric_array) : numeric_array :=
  match a with
  | IntArray l => IntArray l
  | UIntArray l => UIntArray l
  | FloatArray l => FloatArray (map fillna0 l)
  end.

Definition is_finite (f : float64) : bool :=
  match f with Finite _ => true | _ => false end.

Definition cast_float (f : float64) : Z :=
  match f with Finite q => cast_int64 q | _ => int64_min end.

(** The cast of an unsigned 64-bit integer to a signed one keeps the bits. *)
Definition wrap_int64 (z : Z) : Z :=
  if int64_max <? z then z - 2 ^ 64 else z.

(** [astype(int)]: a float array with a value that is not finite raises
    (IntCastingNaNError, a ValueError); otherwise every value is cast. *)
Definition astype_int (a : numeric_array) : outcome (list Z) :=
  match a with
  | IntArray l => Ok l
  | UIntArray l => Ok (map wrap_int64 l)
  | FloatArray l =>
      if forallb is_finite l then Ok (map cast_float l) else Raise ValueError
  end.

Definition coerce_int_column (col : list value) : outcome (list Z) :=
  astype_int (fillna (to_numeric col)).

(** The cell stands for an infinity: the float [inf], or one of its spellings. *)
Definition is_infinite_cell (v : value) : bool :=
  match to_float (classify v) with
  | PosInf | NegInf => true
  | _ => false
  end.

Definition no_infinite (col : list value) : bool :=
  forallb (fun v => negb (is_infinite_cell v)) col.

(** What the coerced column holds for a cell, whatever its neighbours: 0 for
    a cell that is no number, the integer itself when it has at most 53 bits,
    the cast of the float otherwise. *)
Definition cell_result (v : value) (r : Z) : Prop :=
  (classify v = NFloat NaN -> r = 0)
  /\ (forall z, classify v = NInt z -> Z.abs z <= 2 ^ 53 -> r = z)
  /\ (forall q, classify v = NFloat (Finite q) -> r = cast_int64 q).

(** *** [.dt.strftime('%Y-%m-%d')] *)

Definition digit_char (n : nat) : ascii := ascii_of_nat (48 + n mod 10).

Definition two_digits (n : nat) : string :=
  String (digit_char (n / 10)) (String (digit_char n) EmptyString).

Definition four_digits (n : nat) : string :=
  String (digit_char (n / 1000)) (String (digit_char (n / 100)) (two_digits n)).

Definition strftime_ymd (t : timestamp) : string :=
  (four_digits (ts_year t) ++ "-" ++ two_digits (ts_month t) ++ "-"
     ++ two_digits (ts_day t))%string.

Definition is_datetimelike (v : value) : bool :=
  match v with VTimestamp _ | VNaT => true | _ => false end.

Definition strftime_cell (v : value) : value :=
  match v with
  | VTimestamp t => VStr (strftime_ymd t)
  | _ => VFloat NaN
  end.

(** The [.dt] accessor exists on a datetime column only. *)
Definition dt_strftime (col : list value) : outcome (list value) :=
  if forallb is_datetimelike col then Ok (map strftime_cell col)
  else Raise AttributeError.

(** The text has the form of ten characters [dddd-dd-dd]. *)
Definition is_ymd_form (s : string) : bool :=
  match s with
  | String y1 (String y2 (String y3 (String y4 (String h1
      (String m1 (String m2 (String h2 (String d1 (String d2 EmptyString))))))))) =>
      is_digit y1 && is_digit y2 && is_digit y3 && is_digit y4
      && Ascii.eqb h1 "-" && is_digit m1 && is_digit m2
      && Ascii.eqb h2 "-" && is_digit d1 && is_digit d2
  | _ => false
  end.

Definition is_ymd_cell (v : value) : bool :=
  match v with VStr s => is_ymd_form s | _ => false end.

(** ** The persisted table *)

Definition row : Type := list (string * value).

Record table : Type := { tcols : list string; trows : list row }.

(** The data base as the script sees it: the one table, once it exists. *)
Definition database : Type := option table.

(** SQLite takes two column names for the same when they differ at most in
    the case of ASCII letters. *)
Definition same_column (a b : string) : bool :=
  String.eqb (lower_string a) (lower_string b).

Definition has_column (name : string) (cols : list string) : bool :=
  existsb (same_column name) cols.

(** No two names of the list are the same column: what [CREATE TABLE] asks
    of its column list. *)
Fixpoint distinct_columns (cols : list string) : bool :=
  match cols with
  | [] => true
  | c :: rest => negb (has_column c rest) && distinct_columns rest
  end.

(** No label is written twice: otherwise the table object of [to_sql] cannot
    be built (SQLAlchemy raises [DuplicateColumnError]). *)
Fixpoint unique_labels (cols : list string) : bool :=
  match cols with
  | [] => true
  | c :: rest => negb (mem_string c rest) && unique_labels rest
  end.

(** The value a row gives to a column: when several of its labels name the
    column, the first one counts. *)
Fixpoint lookup (name : string) (r : row) : option value :=
  match r with
  | [] => None
  | (n, v) :: rest => if same_column n name then Some v else lookup name rest
  end.

Definition row_at (df : DataFrame) (i : nat) : row :=
  map (fun c => (fst c, nth i (snd c) (VFloat NaN))) df.

Definition rows_of (df : DataFrame) : list row :=
  map (row_at df) (seq 0 (nrows df)).

Definition Z_to_string (z : Z) : string := NilZero.string_of_int (Z.to_int z).

(** [trending_date LIKE '<year>-%']: a text that starts with the year and a
    hyphen.  A number or NULL never does; a stored time stamp is its ISO
    text. *)
Definition like_year (year : Z) (v : value) : bool :=
  let p := (Z_to_string year ++ "-")%string in
  match v with
  | VStr s => starts_with p s
  | VTimestamp t => starts_with p (strftime_ymd t)
  | _ => false
  end.

Definition row_of_year (year : Z) (r : row) : bool :=
  match lookup "trending_date" r with
  | Some v => like_year year v
  | None => false
  end.

(** The query fails when the table or its [trending_date] column is missing
    (OperationalError); both failures are caught and answered [False]. *)
Definition data_already_exist (engine : database) (year : option Z) : bool :=
  match year with
  | None => false
  | Some y =>
      match engine with
      | None => false
      | Some tb =>
          if has_column "trending_date" (tcols tb)
          then existsb (row_of_year y) (trows tb)
          else false
      end
  end.

(** A row of the frame as the table stores it: under the table's columns,
    NULL where the frame has no such column. *)
Definition stored_row (cols : list string) (r : row) : row :=
  map (fun c => (c, match lookup c r with Some v => v | None => VFloat NaN end)) cols.

(** What [to_sql] can write: pandas refuses a column of unsigned 64-bit
    integers (ValueError), the only columns of the reader that hold an
    integer outside the signed range. *)
Definition storable_cell (v : value) : bool :=
  match v with
  | VInt z => in_int64 z
  | _ => true
  end.

Definition storable (df : DataFrame) : bool :=
  forallb (fun c => forallb storable_cell (snd c)) df.

(** [df.to_sql(if_exists='append', index=False)]: the first append creates the
    table with the frame's columns, which SQLite refuses when two of them are
    the same column; a later one inserts the rows under the table's columns
    and fails, in one transaction, when the frame has a column the table
    lacks.  The failure is caught. *)
Definition save_to_database (df : DataFrame) (engine : database) : database :=
  if df_empty df then engine
  else if negb (storable df) then engine
  else
    match engine with
    | None =>
        if distinct_columns (columns df)
        then Some {| tcols := columns df; trows := rows_of df |}
        else engine
    | Some tb =>
        if unique_labels (columns df)
           && forallb (fun c => has_column c (tcols tb)) (columns df)
        then Some {| tcols := tcols tb;
                     trows := trows tb ++ map (stored_row (tcols tb)) (rows_of df) |}
        else engine
    end.

(** [t] is [s] after some appends: the same columns, more rows. *)
Definition extends (s t : database) : Prop :=
  match s with
  | None => True
  | Some tb => exists more, t = Some {| tcols := tcols tb; trows := trows tb ++ more |}
  end.

(** [os.path.join] of two POSIX paths. *)
Definition path_join (a b : string) : string :=
  if starts_with "/" b then b
  else match last_chars 1 a with
       | EmptyString => b
       | String c _ => if Ascii.eqb c "/" then (a ++ b)%string else (a ++ "/" ++ b)%string
       end.

(** ** The pipeline

    [read_csv path] stands for [pd.read_csv(path, encoding='latin1', sep=',')]
    on the files of the run, and [to_datetime] for [pd.to_datetime] on a
    column: a datetime column of time stamps and [VNaT], or an exception. *)

Section Pipeline.

Variable read_csv : string -> outcome DataFrame.
Variable to_datetime : list value -> outcome (list value).

Definition load_data (file_path : string) : outcome DataFrame :=
  match read_csv file_path with
  | Ok df => Ok df
  | Raise FileNotFoundError => Ok empty_DataFrame
  | Raise e => if is_Exception e then Ok empty_DataFrame else Raise e
  end.

Definition date_column : string := "trending_date".
Definition int_columns_to_convert : list string := ["videos_count"].

(** The two assignments to the date column, inside one [try]. *)
Definition convert_date_column (cleaned_df : DataFrame) : outcome DataFrame :=
  match get_column date_column cleaned_df with
  | Some cells =>
      match to_datetime cells with
      | Ok converted =>
          let df1 := set_column date_column converted cleaned_df in
          match dt_strftime converted with
          | Ok formatted => Ok (set_column date_column formatted df1)
          | Raise e => if is_Exception e then Ok df1 else Raise e
          end
      | Raise e => if is_Exception e then Ok cleaned_df else Raise e
      end
  | None => Ok cleaned_df
  end.

Fixpoint convert_int_columns (cols : list string) (cleaned_df : DataFrame)
  : outcome DataFrame :=
  match cols with
  | [] => Ok cleaned_df
  | col :: rest =>
      match get_column col cleaned_df with
      | Some cells =>
          ints <- coerce_int_column cells ;;
          convert_int_columns rest (set_column col (map VInt ints) cleaned_df)
      | None => convert_int_columns rest cleaned_df
      end
  end.

Definition preprocess_data (df : DataFrame) (threshold : Q) : outcome DataFrame :=
  if df_empty df then Ok df
  else
    cleaned_df <- convert_date_column df ;;
    convert_int_columns int_columns_to_convert cleaned_df.

(** *** The main flow *)

Record world : Type := {
  script_dir : string;       (* os.path.dirname(__file__) *)
  db_dir_exists : bool;
  makedirs_fails : bool;     (* os.makedirs raises OSError *)
  connect_fails : bool;      (* the test query raises OperationalError *)
  stored : database;         (* what the data base file holds *)
  data_dir_exists : bool;    (* os.path.exists(data_directory) *)
  listdir_fails : bool;      (* os.listdir raises OSError: the path is no
                                directory, or may not be read *)
  listing : list string      (* os.listdir(data_directory), in its order *)
}.

Definition create_db_engine (w : world) : outcome database :=
  if negb (db_dir_exists w) && makedirs_fails w then Raise (SystemExit 1)
  else if connect_fails w then Raise (SystemExit 1)
  else Ok (stored w).

Definition default_threshold : Q := 1 # 2.

(** One turn of the loop over the directory: the data base and the
    [processed_any_file] flag after it. *)
Definition ingest_file (data_directory filename : string)
  (engine : database) (processed_any_file : bool) : outcome (database * bool) :=
  match re_match filename with
  | Some _ =>
      let file_path := path_join data_directory filename in
      year_from_file <- extract_year_from_path file_path ;;
      match year_from_file with
      | None => Ok (engine, processed_any_file)
      | Some _ =>
          if data_already_exist engine year_from_file
          then Ok (engine, processed_any_file)
          else
            raw_data <- load_data file_path ;;
            if negb (df_empty raw_data) then
              processed_data <- preprocess_data raw_data default_threshold ;;
              if negb (df_empty processed_data)
              then Ok (save_to_database processed_data engine, true)
              else Ok (engine, processed_any_file)
            else Ok (engine, processed_any_file)
      end
  | None => Ok (engine, processed_any_file)
  end.

(** The loop; an exception that escapes a turn ends the run with the data
    base as the earlier turns left it. *)
Fixpoint ingest_files (data_directory : string) (names : list string)
  (engine : database) (processed_any_file : bool) : database * bool * option exn :=
  match names with
  | [] => (engine, processed_any_file, None)
  | filename :: rest =>
      match ingest_file data_directory filename engine processed_any_file with
      | Ok (engine', flag') => ingest_files data_directory rest engine' flag'
      | Raise e => (engine, processed_any_file, Some e)
      end
  end.

Definition data_directory_of (w : world) : string := path_join (script_dir w) "data".

(** The exit status of the interpreter: [sys.exit(n)] gives [n], an uncaught
    exception 1 (an interrupt ends the process by its signal, status 130). *)
Definition exit_status (e : option exn) : Z :=
  match e with
  | None => 0
  | Some (SystemExit n) => n
  | Some KeyboardInterrupt => 130
  | Some _ => 1
  end.

(** The [__main__] block: the data base it leaves and the exit status.  It
    never reads [argv]; [os.listdir] stands outside every [try], so its
    OSError ends the run; validation and export only read the data base and
    catch what they raise. *)
Definition main (argv : list string) (w : world) : database * Z :=
  match create_db_engine w with
  | Raise e => (stored w, exit_status (Some e))
  | Ok engine =>
      if negb (data_dir_exists w) then (engine, 1)
      else if listdir_fails w then (engine, exit_status (Some OtherException))
      else
        let '(engine', _, err) :=
          ingest_files (data_directory_of w) (listing w) engine false in
        (engine', exit_status err)
  end.

(** [to_datetime] raises nothing but subclasses of Exception. *)
Definition raises_exceptions_only : Prop :=
  forall cells e, to_datetime cells = Raise e -> is_Exception e = true.

(** Every file of the directory that the filter accepts and whose table,
    loaded and normalized, is not empty has at least one row that the query
    of [data_already_exist] finds for the year of the file's name: a row
    whose [trending_date] begins with the decimal numeral of that year, as
    [int] gives it (no leading zero), and a hyphen. *)
Definition own_year_rows (data_directory : string) (names : list string) : Prop :=
  forall name y raw processed,
    In name names ->
    re_match name <> None ->
    extract_year_from_path (path_join data_directory name) = Ok (Some y) ->
    load_data (path_join data_directory name) = Ok raw ->
    preprocess_data raw default_threshold = Ok processed ->
    df_empty processed = false ->
    existsb (row_of_year y) (rows_of processed) = true.

(** No file of the directory that the filter accepts has two column labels
    that differ at most in the case of their letters. *)
Definition distinct_labels (data_directory : string) (names : list string) : Prop :=
  forall name raw,
    In name names ->
    re_match name <> None ->
    load_data (path_join data_directory name) = Ok raw ->
    distinct_columns (columns raw) = true.

End Pipeline.

(** ** Sample inputs

    A stand-in for [pd.to_datetime] on columns of ISO dates: a missing value
    (the empty text, NaN, NaT) becomes [VNaT]; every text must be a calendar
    date [YYYY-MM-DD], all of them with a time of day [THH:MM:SS] or all
    without; any other column raises ValueError.  On such columns pandas
    answers the same; pandas parses more. *)

Definition two_digit_number (a b : ascii) : option nat :=
  if is_digit a && is_digit b
  then Some (Z.to_nat (10 * digit_value a + digit_value b))
  else None.

Definition leap_year (y : nat) : bool :=
  ((y mod 4 =? 0) && negb (y mod 100 =? 0) || (y mod 400 =? 0))%nat.

Definition days_in_month (y m : nat) : nat :=
  match m with
  | 2 => if leap_year y then 29 else 28
  | 4 | 6 | 9 | 11 => 30
  | _ => 31
  end%nat.

Definition valid_date (t : timestamp) : bool :=
  ((1678 <=? ts_year t) && (ts_year t <=? 2261)
   && (1 <=? ts_month t) && (ts_month t <=? 12)
   && (1 <=? ts_day t) && (ts_day t <=? days_in_month (ts_year t) (ts_month t)))%nat.

Definition valid_time (s : string) : bool :=
  match s with
  | String sep (String h1 (String h2 (String c1 (String m1 (String m2
      (String c2 (String s1 (String s2 EmptyString)))))))) =>
      (Ascii.eqb sep "T" || Ascii.eqb sep " ")
      && Ascii.eqb c1 ":" && Ascii.eqb c2 ":"
      && match two_digit_number h1 h2, two_digit_number m1 m2, two_digit_number s1 s2 with
         | Some h, Some m, Some sec => ((h <=? 23) && (m <=? 59) && (sec <=? 59))%nat
         | _, _, _ => false
         end
  | _ => false
  end.

(** The date of an ISO text and whether a time of day follows it. *)
Definition parse_iso (s : string) : option (timestamp * bool) :=
  match s with
  | String y1 (String y2 (String y3 (String y4 (String h1
      (String m1 (String m2 (String h2 (String d1 (String d2 rest))))))))) =>
      match two_digit_number y1 y2, two_digit_number y3 y4,
            two_digit_number m1 m2, two_digit_number d1 d2 with
      | Some yh, Some yl, Some m, Some d =>
          let t := {| ts_year := 100 * yh + yl; ts_month := m; ts_day := d |} in
          if Ascii.eqb h1 "-" && Ascii.eqb h2 "-" && valid_date t then
            match rest with
            | EmptyString => Some (t, false)
            | _ => if valid_time rest then Some (t, true) else None
            end
          else None
      | _, _, _, _ => None
      end
  | _ => None
  end.

(** [shape]: whether the texts seen so far carry a time of day. *)
Fixpoint iso_cells (shape : option bool) (cells : list value) : outcome (list value) :=
  match cells with
  | [] => Ok []
  | VStr EmptyString :: rest | VFloat NaN :: rest | VNaT :: rest =>
      r <- iso_cells shape rest ;; Ok (VNaT :: r)
  | VTimestamp t :: rest => r <- iso_cells shape rest ;; Ok (VTimestamp t :: r)
  | VStr s :: rest =>
      match parse_iso s with
      | Some (t, has_time) =>
          match shape with
          | Some b =>
              if Bool.eqb b has_time
              then r <- iso_cells shape rest ;; Ok (VTimestamp t :: r)
              else Raise ValueError
          | None => r <- iso_cells (Some has_time) rest ;; Ok (VTimestamp t :: r)
          end
      | None => Raise ValueError
      end
  | _ :: _ => Raise ValueError
  end.

Definition iso_to_datetime (cells : list value) : outcome (list value) :=
  iso_cells None cells.

(** A data directory with one file, named for 2020, whose only row is dated
    in 2021. *)
Definition misdated_file : DataFrame :=
  [("trending_date", [VStr "2021-01-01"]); ("videos_count", [VInt 5])].

Definition misdated_read_csv (path : string) : outcome DataFrame :=
  if String.eqb path "data/trending_by_time_2020.csv" then Ok misdated_file
  else Raise FileNotFoundError.

(** The file of the specification's scenario, every date with its time. *)
Definition scenario_file : DataFrame :=
  [("trending_date", [VStr "2020-05-01T10:00:00"; VStr "2020-05-02T00:00:00"]);
   ("videos_count", [VStr "5"; VStr "x"])].

Definition scenario_read_csv (path : string) : outcome DataFrame :=
  if String.eqb path "data/trending_by_time_2020.csv" then Ok scenario_file
  else Raise FileNotFoundError.

Definition sample_world : world :=
  {| script_dir := EmptyString; db_dir_exists := true; makedirs_fails := false;
     connect_fails := false; stored := None; data_dir_exists := true;
     listdir_fails := false;
     listing := ["notes.txt"; "trending_by_time_2020.csv"] |}.

(** The world of the next run: the same files, the data base as left. *)
Definition with_stored (w : world) (db : database) : world :=
  {| script_dir := script_dir w; db_dir_exists := db_dir_exists w;
     makedirs_fails := makedirs_fails w; connect_fails := connect_fails w;
     stored := db; data_dir_exists := data_dir_exists w;
     listdir_fails := listdir_fails w; listing := listing w |}.

(** A directory with two files.  The one named for 2020 has the labels
    [Views] and [views], one column to SQLite; the one named for 2021 has
    plain labels. *)
Definition clash_file : DataFrame :=
  [("trending_date", [VStr "2020-03-01"]); ("Views", [VInt 1]); ("views", [VInt 2])].

Definition plain_file : DataFrame :=
  [("trending_date", [VStr "2021-03-01"]); ("views", [VInt 3])].

Definition clash_read_csv (path : string) : outcome DataFrame :=
  if String.eqb path "data/trending_by_time_2020.csv" then Ok clash_file
  else if String.eqb path "data/trending_by_time_2021.csv" then Ok plain_file
  else Raise FileNotFoundError.

Definition clash_world : world :=
  {| script_dir := EmptyString; db_dir_exists := true; makedirs_fails := false;
     connect_fails := false; stored := None; data_dir_exists := true;
     listdir_fails := false;
     listing := ["trending_by_time_2020.csv"; "trending_by_time_2021.csv"] |}.

(** The data path exists and cannot be listed. *)
Definition unlistable_world : world :=
  {| script_dir := EmptyString; db_dir_exists := true; makedirs_fails := false;
     connect_fails := false; stored := None; data_dir_exists := true;
     listdir_fails := true; listing := [] |}.

(** The rows of the persisted table whose date begins with the year. *)
Definition count_year (year : Z) (db : database) : nat :=
  match db with
  | None => 0%nat
  | Some tb => List.length (filter (row_of_year year) (trows tb))
  end.

(** * Properties *)

(** ** Texts *)

Lemma strip_prefix_Some (p s r : string) :
  strip_prefix p s = Some r -> s = (p ++ r)%string.
Proof.
  revert s; induction p as [|a p IH]; intros s H; simpl in *.
  - now inversion H.
  - destruct s as [|b s]; [discriminate|].
    destruct (Ascii.eqb a b) eqn:E; [|discriminate].
    apply Ascii.eqb_eq in E; subst b. f_equal. now apply IH.
Qed.

Lemma strip_prefix_app (p r : string) : strip_prefix p (p ++ r) = Some r.
Proof.
  induction p as [|a p IH]; simpl; [reflexivity|].
  now rewrite Ascii.eqb_refl.
Qed.

Lemma string_length_app (a b : string) :
  String.length (a ++ b) = (String.length a + String.length b)%nat.
Proof. induction a; simpl; [reflexivity|]. now rewrite IHa. Qed.

Lemma substring_full s : substring 0 (String.length s) s = s.
Proof. induction s as [|c s IH]; simpl; [reflexivity|]. now rewrite IH. Qed.

Lemma digit_cases (c : ascii) :
  is_digit c = true ->
  In c ["0"; "1"; "2"; "3"; "4"; "5"; "6"; "7"; "8"; "9"]%char.
Proof.
  destruct c as [[] [] [] [] [] [] [] []]; vm_compute; intros H;
    try discriminate H; tauto.
Qed.

Ltac digit_case H :=
  apply digit_cases in H; simpl in H;
  repeat (destruct H as [H|H]; [subst; try reflexivity|]); try contradiction.

Lemma digit_value_range c : is_digit c = true -> 0 <= digit_value c <= 9.
Proof.
  intros H. apply digit_cases in H. simpl in H.
  repeat (destruct H as [H|H]; [subst; vm_compute; split; discriminate|]).
  contradiction.
Qed.

Lemma digit_not_space c : is_digit c = true -> is_py_space c = false.
Proof. intros H. digit_case H. Qed.

Lemma digit_not_underscore c : is_digit c = true -> is_underscore c = false.
Proof. intros H. digit_case H. Qed.

Lemma digit_not_plus c : is_digit c = true -> Ascii.eqb c "+" = false.
Proof. intros H. digit_case H. Qed.

Lemma digit_not_minus c : is_digit c = true -> Ascii.eqb c "-" = false.
Proof. intros H. digit_case H. Qed.

Lemma space_not_digit_or_underscore c :
  is_py_space c = true -> digit_or_underscore c = false.
Proof.
  destruct c as [[] [] [] [] [] [] [] []]; vm_compute; intros H;
    try discriminate H; reflexivity.
Qed.

Lemma underscore_eq c : is_underscore c = true -> c = "_"%char.
Proof. unfold is_underscore. apply Ascii.eqb_eq. Qed.

Lemma lstrip_split sp s :
  exists l, s = (l ++ lstrip sp s)%string /\ string_forall sp l = true.
Proof.
  induction s as [|c t IH]; simpl.
  - exists EmptyString. auto.
  - destruct (sp c) eqn:E.
    + destruct IH as (l & Hl & Hsp). exists (String c l). simpl.
      rewrite E, Hsp. split; [now f_equal|reflexivity].
    + exists EmptyString. auto.
Qed.

Lemma lstrip_empty sp s : lstrip sp s = EmptyString -> string_forall sp s = true.
Proof.
  induction s as [|c t IH]; simpl; [reflexivity|].
  destruct (sp c); [auto|discriminate].
Qed.

Lemma lstrip_all sp s : string_forall sp s = true -> lstrip sp s = EmptyString.
Proof.
  induction s as [|c t IH]; simpl; [reflexivity|].
  destruct (sp c); simpl; [auto|discriminate].
Qed.

Lemma lstrip_app sp l s :
  string_forall sp l = true -> lstrip sp (l ++ s) = lstrip sp s.
Proof.
  induction l as [|c t IH]; simpl; [reflexivity|].
  destruct (sp c); simpl; [auto|discriminate].
Qed.

Lemma lstrip_nonspace sp c t : sp c = false -> lstrip sp (String c t) = String c t.
Proof. intros H. simpl. now rewrite H. Qed.

Lemma span_split p s a b :
  span p s = (a, b) -> s = (a ++ b)%string /\ string_forall p a = true.
Proof.
  revert a b; induction s as [|c t IH]; simpl; intros a b H.
  - inversion H; auto.
  - destruct (p c) eqn:E.
    + destruct (span p t) as [a' b'] eqn:E'. inversion H; subst.
      destruct (IH _ _ eq_refl) as [-> Hp]. simpl. rewrite E, Hp. auto.
    + inversion H; auto.
Qed.

Lemma span_app p a b :
  string_forall p a = true ->
  match b with EmptyString => True | String c _ => p c = false end ->
  span p (a ++ b) = (a, b).
Proof.
  intros Ha Hb. induction a as [|c t IH]; simpl in *.
  - destruct b as [|c b]; [reflexivity|]. simpl. now rewrite Hb.
  - apply andb_true_iff in Ha as [Hc Ht]. rewrite Hc, (IH Ht). reflexivity.
Qed.

Lemma split_nonempty sep s : split sep s <> [].
Proof.
  destruct s as [|c t]; simpl; [discriminate|].
  destruct (Ascii.eqb c sep); [discriminate|].
  destruct (split sep t); discriminate.
Qed.

Lemma getitem_last {A} (l : list A) : l <> [] -> exists x, getitem l (-1) = Ok x.
Proof.
  intros Hl. unfold getitem.
  assert (Hn : (0 < List.length l)%nat) by (destruct l; [contradiction|simpl; lia]).
  replace (-1 <? 0) with true by reflexivity.
  destruct ((-1 + Z.of_nat (List.length l) <? 0)
            || (Z.of_nat (List.length l) <=? -1 + Z.of_nat (List.length l))) eqn:E.
  - apply orb_true_iff in E as [E|E]; [apply Z.ltb_lt in E|apply Z.leb_le in E]; lia.
  - destruct (nth_error l (Z.to_nat (-1 + Z.of_nat (List.length l)))) eqn:En; [eauto|].
    apply nth_error_None in En. lia.
Qed.

Lemma getitem_first {A} (l : list A) : l <> [] -> exists x, getitem l 0 = Ok x.
Proof.
  intros Hl. destruct l as [|x l]; [contradiction|].
  exists x. unfold getitem. simpl List.length.
  replace (0 <? 0) with false by reflexivity.
  destruct ((0 <? 0) || (Z.of_nat (S (List.length l)) <=? 0)) eqn:E.
  - apply orb_true_iff in E as [E|E]; [discriminate|apply Z.leb_le in E; lia].
  - reflexivity.
Qed.

(** ** [int()] against its grammar *)

Lemma digits_value_digit acc c t :
  is_digit c = true ->
  digits_value acc (String c t) = digits_value (10 * acc + digit_value c) t.
Proof. intros H. cbn [digits_value]. now rewrite (digit_not_underscore _ H). Qed.

Lemma valid_body_digit b c t :
  is_digit c = true -> valid_body b (String c t) = valid_body false t.
Proof. intros H. cbn [valid_body]. now rewrite (digit_not_underscore _ H). Qed.

Lemma valid_body_groups t :
  string_forall digit_or_underscore t = true ->
  (valid_body true t = true -> digit_groups t)
  /\ (valid_body false t = true ->
      t = EmptyString \/ digit_groups t
      \/ exists t', t = String "_" t' /\ digit_groups t').
Proof.
  induction t as [|c t IH]; simpl; intros Hok.
  - split; [discriminate|auto].
  - apply andb_true_iff in Hok as [Hc Ht]. specialize (IH Ht) as [IH1 IH2].
    destruct (is_underscore c) eqn:Eu.
    + apply underscore_eq in Eu; subst c. simpl. split; [discriminate|].
      intros H. right; right. eauto.
    + assert (Hd : is_digit c = true).
      { unfold digit_or_underscore in Hc. rewrite Eu in Hc. now rewrite orb_false_r in Hc. }
      assert (G : valid_body false t = true -> digit_groups (String c t)).
      { intros H. destruct (IH2 H) as [->|[Hg|(t' & -> & Hg)]].
        - now constructor.
        - now apply dg_next.
        - now apply dg_sep. }
      split; intros H; [apply G; exact H | right; left; apply G; exact H].
Qed.

Lemma digit_groups_valid s :
  digit_groups s ->
  string_forall digit_or_underscore s = true
  /\ (forall b, valid_body b s = true)
  /\ exists d t, s = String d t /\ is_digit d = true.
Proof.
  induction 1 as [d Hd|d s Hd Hs IH|d s Hd Hs IH].
  - repeat split.
    + simpl. unfold digit_or_underscore. now rewrite Hd.
    + intros b. now rewrite valid_body_digit.
    + eauto.
  - destruct IH as (Hok & Hv & _). repeat split.
    + cbn [string_forall]. rewrite Hok. unfold digit_or_underscore. now rewrite Hd.
    + intros b. rewrite valid_body_digit by assumption. apply Hv.
    + eauto.
  - destruct IH as (Hok & Hv & _). repeat split.
    + cbn [string_forall]. rewrite Hok. unfold digit_or_underscore. now rewrite Hd.
    + intros b. rewrite valid_body_digit by assumption. simpl. apply Hv.
    + eauto.
Qed.

Lemma take_sign_split s sign s2 :
  take_sign s = (sign, s2) ->
  exists sg, s = (sg ++ s2)%string /\ (sg = EmptyString \/ sg = "+" \/ sg = "-").
Proof.
  unfold take_sign. destruct s as [|c t].
  - intros H; inversion H. exists EmptyString. auto.
  - destruct (Ascii.eqb c "+") eqn:E1.
    { apply Ascii.eqb_eq in E1; subst. intros H; inversion H. exists "+". auto. }
    destruct (Ascii.eqb c "-") eqn:E2.
    { apply Ascii.eqb_eq in E2; subst. intros H; inversion H. exists "-". auto. }
    intros H; inversion H. exists EmptyString. auto.
Qed.

(** What [int()] accepts is a literal of the grammar. *)
Lemma py_int_sound s z : py_int s = Ok z -> int_literal s.
Proof.
  unfold py_int. intros H.
  destruct (lstrip_split is_py_space s) as (l & Hs & Hl).
  destruct (take_sign (lstrip is_py_space s)) as [sign s2] eqn:Es.
  destruct (take_sign_split _ _ _ Es) as (sg & Hsg & Hsign).
  destruct (span digit_or_underscore s2) as [body rest] eqn:Esp.
  destruct (span_split _ _ _ _ Esp) as [Hs2 Hok].
  destruct (valid_body true body && String.eqb (lstrip is_py_space rest) EmptyString) eqn:Ev;
    [|discriminate].
  apply andb_true_iff in Ev as [Hv Hr]. apply String.eqb_eq in Hr.
  exists l, sg, body, rest. repeat split; auto.
  - rewrite Hs at 1. rewrite Hsg, Hs2. reflexivity.
  - now apply (valid_body_groups body Hok).
  - now apply lstrip_empty.
Qed.

(** Every literal of the grammar is accepted. *)
Lemma py_int_complete s : int_literal s -> exists z, py_int s = Ok z.
Proof.
  intros (l & sg & body & r & -> & Hl & Hsg & Hb & Hr).
  destruct (digit_groups_valid _ Hb) as (Hok & Hv & d & t & -> & Hd).
  assert (Hspan : span digit_or_underscore (String d t ++ r) = (String d t, r)).
  { apply span_app; [exact Hok|]. destruct r as [|c r]; [exact I|].
    simpl in Hr. apply andb_true_iff in Hr as [Hc _].
    now apply space_not_digit_or_underscore. }
  unfold py_int. rewrite (lstrip_app _ _ _ Hl).
  assert (Hsign : exists sign,
             take_sign (lstrip is_py_space (sg ++ String d t ++ r))
             = (sign, (String d t ++ r)%string)).
  { destruct Hsg as [->|[->| ->]]; cbn [append].
    - rewrite lstrip_nonspace by now apply digit_not_space.
      exists 1. unfold take_sign. now rewrite (digit_not_plus _ Hd), (digit_not_minus _ Hd).
    - exists 1. reflexivity.
    - exists (-1). reflexivity. }
  destruct Hsign as (sign & ->). rewrite Hspan, Hv, (lstrip_all _ _ Hr).
  eexists. reflexivity.
Qed.

Lemma py_int_raises_ValueError s e : py_int s = Raise e -> e = ValueError.
Proof.
  unfold py_int.
  destruct (take_sign _) as [? ?]. destruct (span _ _) as [? ?].
  destruct (_ && _); [discriminate|]. intros H. now inversion H.
Qed.

Lemma py_int_four a b c d :
  is_digit a = true -> is_digit b = true -> is_digit c = true -> is_digit d = true ->
  py_int (four a b c d)
  = Ok (1000 * digit_value a + 100 * digit_value b + 10 * digit_value c + digit_value d).
Proof.
  intros Ha Hb Hc Hd. unfold py_int, four.
  cbn [lstrip]. rewrite (digit_not_space _ Ha).
  cbn [take_sign]. rewrite (digit_not_plus _ Ha), (digit_not_minus _ Ha).
  cbn [span]. unfold digit_or_underscore. rewrite Ha, Hb, Hc, Hd. cbn [orb span].
  rewrite !valid_body_digit by assumption.
  rewrite !digits_value_digit by assumption.
  cbn [valid_body negb andb lstrip String.eqb digits_value].
  f_equal. lia.
Qed.

(** ** The file-name pattern *)

Lemma pattern_here_inv s g :
  pattern_here s = Some g ->
  exists a b c d e,
    g = four a b c d
    /\ is_digit a = true /\ is_digit b = true /\ is_digit c = true /\ is_digit d = true
    /\ s = ("trending_by_time_" ++ four a b c d ++ ".csv" ++ e)%string
    /\ at_dollar e = true.
Proof.
  unfold pattern_here. intros H.
  destruct (strip_prefix "trending_by_time_" s) as [r|] eqn:E1; [|discriminate].
  apply strip_prefix_Some in E1.
  destruct r as [|a [|b [|c [|d r]]]]; try discriminate.
  destruct (is_digit a && is_digit b && is_digit c && is_digit d) eqn:Ed; [|discriminate].
  destruct (strip_prefix ".csv" r) as [r'|] eqn:E2; [|discriminate].
  apply strip_prefix_Some in E2.
  destruct (at_dollar r') eqn:E3; [|discriminate].
  inversion H; subst g.
  apply andb_true_iff in Ed as [Ed Hd].
  apply andb_true_iff in Ed as [Ed Hc].
  apply andb_true_iff in Ed as [Ha Hb].
  exists a, b, c, d, r'. subst r. unfold four. repeat split; auto.
Qed.

Lemma pattern_here_intro e a b c d :
  is_digit a = true -> is_digit b = true -> is_digit c = true -> is_digit d = true ->
  at_dollar e = true ->
  pattern_here ("trending_by_time_" ++ four a b c d ++ ".csv" ++ e) = Some (four a b c d).
Proof.
  intros Ha Hb Hc Hd He. unfold pattern_here.
  rewrite strip_prefix_app. unfold four. cbn [append].
  rewrite Ha, Hb, Hc, Hd. cbn [andb].
  change (String "." (String "c" (String "s" (String "v" e)))) with (".csv" ++ e)%string.
  rewrite strip_prefix_app, He. reflexivity.
Qed.

Lemma at_dollar_length e : at_dollar e = true -> (String.length e <= 1)%nat.
Proof. destruct e as [|c [|]]; simpl; intros; try discriminate; lia. Qed.

(** The pattern cannot match earlier than a place where it matches: a match
    ends at the end of the text, and all matches are equally long. *)
Lemma pattern_here_shift s g :
  pattern_here s = Some g ->
  forall c p, pattern_here (String c (p ++ s)) = None.
Proof.
  intros H c p.
  destruct (pattern_here (String c (p ++ s))) as [g'|] eqn:E; [exfalso|reflexivity].
  apply pattern_here_inv in H.
  destruct H as (a & b & c1 & d & e & -> & Ha & Hb & Hc & Hd & Hs & He).
  apply pattern_here_inv in E.
  destruct E as (a' & b' & c' & d' & e' & -> & _ & _ & _ & _ & Hs' & He').
  assert (L : String.length (String c (p ++ s))
              = String.length ("trending_by_time_" ++ four a' b' c' d' ++ ".csv" ++ e')%string)
    by now rewrite Hs'.
  apply at_dollar_length in He'.
  pose proof (at_dollar_length _ He) as Le.
  subst s. simpl in L. rewrite string_length_app in L. simpl in L.
  destruct p as [|x p]; [|simpl in L; lia].
  destruct e as [|y e]; [|simpl in L; lia].
  simpl in Hs'. unfold four in Hs'. simpl in Hs'.
  injection Hs' as ? ?. discriminate.
Qed.

Lemma re_search_eq s :
  re_search s =
  match pattern_here s with
  | Some g => Some g
  | None => match s with EmptyString => None | String _ t => re_search t end
  end.
Proof. destruct s; reflexivity. Qed.

Lemma re_search_app p s g :
  pattern_here s = Some g -> re_search (p ++ s) = Some g.
Proof.
  intros H. induction p as [|c p IH].
  - simpl. rewrite re_search_eq, H. reflexivity.
  - rewrite re_search_eq. simpl append.
    rewrite (pattern_here_shift _ _ H). exact IH.
Qed.

Lemma re_search_digits s g :
  re_search s = Some g ->
  exists a b c d, g = four a b c d /\ is_digit a = true /\ is_digit b = true
                  /\ is_digit c = true /\ is_digit d = true.
Proof.
  induction s as [|x t IH]; rewrite re_search_eq.
  - destruct (pattern_here EmptyString) eqn:E; [|discriminate].
    intros H; inversion H; subst.
    apply pattern_here_inv in E as (a & b & c & d & e & -> & Ha & Hb & Hc & Hd & _).
    exists a, b, c, d. auto.
  - destruct (pattern_here (String x t)) eqn:E; [|exact IH].
    intros H; inversion H; subst.
    apply pattern_here_inv in E as (a & b & c & d & e & -> & Ha & Hb & Hc & Hd & _).
    exists a, b, c, d. auto.
Qed.

Lemma fallback_text_total p : exists t, fallback_text p = Ok t.
Proof.
  unfold fallback_text, fallback_stem.
  destruct (getitem_last (split "/" p) (split_nonempty _ _)) as (name & ->).
  cbn [bind].
  destruct (getitem_first (split "." name) (split_nonempty _ _)) as (stem & ->).
  cbn [bind]. eauto.
Qed.

Lemma path_join_suffix a b :
  starts_with "/" b = false -> exists p, path_join a b = (p ++ b)%string.
Proof.
  intros H. unfold path_join. rewrite H.
  destruct (last_chars 1 a) as [|c r].
  - exists EmptyString. reflexivity.
  - destruct (Ascii.eqb c "/").
    + now exists a.
    + exists (a ++ "/")%string. clear. induction a; simpl; [reflexivity|]. now f_equal.
Qed.

(** A name that passes the filter of the main loop gives its year, under any
    directory. *)
Lemma re_match_extract dir name g :
  re_match name = Some g ->
  exists y, py_int g = Ok y
            /\ extract_year_from_path (path_join dir name) = Ok (Some y).
Proof.
  unfold re_match. intros H.
  pose proof (pattern_here_inv _ _ H) as (a & b & c & d & e & -> & Ha & Hb & Hc & Hd & Hn & He).
  assert (Hs : starts_with "/" name = false) by (subst name; reflexivity).
  destruct (path_join_suffix dir name Hs) as (p & ->).
  exists (1000 * digit_value a + 100 * digit_value b + 10 * digit_value c + digit_value d).
  split; [now apply py_int_four|].
  unfold extract_year_from_path. rewrite (re_search_app p _ _ H).
  rewrite py_int_four by assumption. reflexivity.
Qed.

(** C5.  For every file path that ends in [trending_by_time_<4 digits>.csv],
    [extract_year_from_path] returns the number the four digits write. *)
Theorem extract_year_strict (dir : string) (a b c d : ascii) :
  is_digit a = true -> is_digit b = true -> is_digit c = true -> is_digit d = true ->
  extract_year_from_path (dir ++ "trending_by_time_" ++ four a b c d ++ ".csv")
  = Ok (Some (1000 * digit_value a + 100 * digit_value b + 10 * digit_value c
              + digit_value d)).
Proof.
  intros Ha Hb Hc Hd. unfold extract_year_from_path.
  pose proof (pattern_here_intro EmptyString a b c d Ha Hb Hc Hd eq_refl) as P.
  change (".csv" ++ EmptyString)%string with ".csv" in P.
  rewrite (re_search_app dir _ _ P).
  rewrite py_int_four by assumption. reflexivity.
Qed.

(** C6, amended.  [extract_year_from_path] never raises.  When the strict
    pattern does not match, it reads the last four characters of the stem (the
    whole stem when it is shorter) and returns the absence signal exactly when
    they are not an integer literal of [int()]: white space, an optional sign,
    digits in groups separated by single underscores, white space. *)
Theorem extract_year_fallback (file_path : string) :
  exists year_str,
    fallback_text file_path = Ok year_str
    /\ (exists r, extract_year_from_path file_path = Ok r)
    /\ (re_search file_path = None -> ~ int_literal year_str ->
        extract_year_from_path file_path = Ok None)
    /\ (re_search file_path = None -> int_literal year_str ->
        exists y, extract_year_from_path file_path = Ok (Some y)).
Proof.
  destruct (fallback_text_total file_path) as (t & Ht).
  exists t. split; [exact Ht|].
  assert (Hstrict : forall g, re_search file_path = Some g ->
                      exists r, (y <- py_int g ;; Ok (Some y)) = Ok r).
  { intros g Eg.
    destruct (re_search_digits _ _ Eg) as (a & b & c & d & -> & Ha & Hb & Hc & Hd).
    rewrite py_int_four by assumption. cbn [bind]. eauto. }
  unfold extract_year_from_path, fallback_year. rewrite Ht. cbn [bind].
  destruct (py_int t) as [y|e] eqn:Ey.
  - split; [|split].
    + destruct (re_search file_path) as [g|] eqn:Eg; [now apply Hstrict|eauto].
    + intros _ Hn. exfalso. apply Hn. eapply py_int_sound; eauto.
    + intros -> _. eauto.
  - apply py_int_raises_ValueError in Ey as Hv. subst e. split; [|split].
    + destruct (re_search file_path) as [g|] eqn:Eg; [now apply Hstrict|eauto].
    + intros -> _. reflexivity.
    + intros _ Hl. apply py_int_complete in Hl as (z & Hz). congruence.
Qed.

(** ** Tables *)

Lemma get_set_same name cells df old :
  get_column name df = Some old ->
  get_column name (set_column name cells df) = Some cells.
Proof.
  induction df as [|[n c] df IH]; simpl; [discriminate|].
  destruct (String.eqb n name) eqn:E; [reflexivity|exact IH].
Qed.

Lemma get_set_other name other cells df :
  String.eqb other name = false ->
  get_column name (set_column other cells df) = get_column name df.
Proof.
  intros Hne. induction df as [|[n c] df IH]; simpl; [reflexivity|].
  destruct (String.eqb n name) eqn:E; [|exact IH].
  apply String.eqb_eq in E; subst n.
  rewrite String.eqb_sym in Hne. now rewrite Hne.
Qed.

Lemma columns_set name cells df : columns (set_column name cells df) = columns df.
Proof.
  unfold columns. induction df as [|[n c] df IH]; simpl; [reflexivity|]. now rewrite IH.
Qed.

Lemma forallb_nth_error {A} (p : A -> bool) l i x :
  forallb p l = true -> nth_error l i = Some x -> p x = true.
Proof.
  intros H Hn. rewrite forallb_forall in H. apply H. eapply nth_error_In; eauto.
Qed.

(** ** The integer coercion *)

Lemma round64_small z : Z.abs z <= 2 ^ 53 -> round64 (inject_Z z) = Finite (z # 1).
Proof.
  intros H. unfold round64, inject_Z. cbn [Qnum Qden].
  replace (Z.pos 1 =? 1) with true by reflexivity.
  apply Z.leb_le in H. rewrite H. reflexivity.
Qed.

Lemma cast_int64_small z : Z.abs z <= 2 ^ 53 -> cast_int64 (z # 1) = z.
Proof.
  intros H. unfold cast_int64, truncate. cbn [Qnum Qden].
  rewrite Z.quot_1_r.
  assert (B : in_int64 z = true).
  { unfold in_int64, int64_min, int64_max. apply andb_true_iff.
    assert (2 ^ 53 < 2 ^ 63) by (apply Z.pow_lt_mono_r; lia).
    split; apply Z.leb_le; lia. }
  now rewrite B.
Qed.

(** The cast drops the fraction: the result lies between zero and the value,
    less than one away from it. *)
Lemma truncate_toward_zero q :
  (0 <= q -> inject_Z (truncate q) <= q /\ q < inject_Z (truncate q) + 1)%Q
  /\ (q <= 0 -> inject_Z (truncate q) - 1 < q /\ q <= inject_Z (truncate q))%Q.
Proof.
  destruct q as [n d]. unfold truncate. cbn [Qnum Qden].
  pose proof (Z.quot_rem' n (Z.pos d)) as E.
  set (z := n ÷ Z.pos d) in *.
  unfold Qle, Qlt, Qminus, Qplus, Qopp, inject_Z. cbn [Qnum Qden].
  rewrite ?Pos.mul_1_r, ?Z.mul_1_r.
  split; intros H.
  - assert (Hn : 0 <= n) by lia.
    pose proof (Z.rem_bound_pos n (Z.pos d) Hn ltac:(lia)). nia.
  - assert (Hn : n <= 0) by lia.
    pose proof (Z.rem_bound_pos (- n) (Z.pos d) ltac:(lia) ltac:(lia)) as B.
    rewrite Z.rem_opp_l in B by lia. nia.
Qed.

(** *** Decimal texts

    A decimal of at most 15 digits is read correctly rounded, and rounding
    does not carry it over an integer: the cast gives its integer part. *)

Lemma rne_error n d : 0 < d -> 2 * Z.abs (rne n d * d - n) <= d.
Proof.
  intros Hd. unfold rne. cbv zeta.
  pose proof (Z.div_mod n d ltac:(lia)) as E.
  pose proof (Z.mod_pos_bound n d Hd) as B.
  destruct (Z.even (n / d)); destruct (Z.compare_spec (2 * (n mod d)) d) as [C|C|C];
    set (q := n / d) in *; set (r := n mod d) in *; clearbody q r; lia.
Qed.

Lemma floor_log2_lower n d :
  0 < n -> 0 < d ->
  (0 <= floor_log2 n d -> d * 2 ^ floor_log2 n d <= n)
  /\ (floor_log2 n d < 0 -> d <= n * 2 ^ (- floor_log2 n d)).
Proof.
  intros Hn Hd. unfold floor_log2.
  pose proof (Z.log2_spec n Hn) as [Ln Un].
  pose proof (Z.log2_spec d Hd) as [Ld Ud].
  pose proof (Z.log2_nonneg n) as Nn. pose proof (Z.log2_nonneg d) as Nd.
  set (a := Z.log2 n) in *. set (b := Z.log2 d) in *.
  destruct (Z.leb_spec 0 (a - b)) as [Hk|Hk].
  - destruct (Z.leb_spec (d * 2 ^ (a - b)) n) as [Ht|Ht].
    + split; [auto|lia].
    + assert (Ea : 2 ^ a = 2 ^ b * 2 ^ (a - b)).
      { rewrite <- Z.pow_add_r by lia. f_equal; lia. }
      split; intros H.
      * assert (Ek : 2 ^ (a - b) = 2 * 2 ^ (a - b - 1)).
        { rewrite <- Z.pow_succ_r by lia. f_equal; lia. }
        rewrite Z.pow_succ_r in Ud by lia.
        assert (0 < 2 ^ (a - b - 1)) by (apply Z.pow_pos_nonneg; lia).
        nia.
      * assert (a - b = 0) by lia.
        replace (- (a - b - 1)) with 1 by lia.
        rewrite Z.pow_succ_r in Ud by lia. replace b with a in * by lia. lia.
  - destruct (Z.leb_spec d (n * 2 ^ (- (a - b)))) as [Ht|Ht].
    + split; [lia|auto].
    + split; [lia|]. intros _.
      replace (- (a - b - 1)) with (b + 1 - a) by lia.
      assert (Eb : 2 ^ (b + 1) = 2 ^ a * 2 ^ (b + 1 - a)).
      { rewrite <- Z.pow_add_r by lia. f_equal; lia. }
      assert (0 < 2 ^ (b + 1 - a)) by (apply Z.pow_pos_nonneg; lia).
      replace (Z.succ b) with (b + 1) in Ud by lia.
      nia.
Qed.

Lemma truncate_comp x y : (x == y)%Q -> truncate x = truncate y.
Proof.
  destruct x as [a b], y as [c d]. unfold Qeq, truncate. cbn [Qnum Qden]. intros H.
  rewrite <- (Z.quot_mul_cancel_r a (Z.pos b) (Z.pos d)) by lia.
  rewrite H, (Z.mul_comm (Z.pos b)).
  apply Z.quot_mul_cancel_r; lia.
Qed.

(** A scaled numerator within half a unit of [N * t / p] has the integer part
    of [N / p], when the scale exceeds half the denominator. *)
Lemma scaled_quot N p t M :
  0 <= N -> 0 < p -> 0 < t -> p < 2 * t ->
  2 * Z.abs (M * p - N * t) <= p ->
  0 <= M /\ M ÷ t = N ÷ p.
Proof.
  intros HN Hp Ht Hpt Herr.
  rewrite (Z.quot_div_nonneg N p) by lia.
  pose proof (Z.div_mod N p ltac:(lia)) as E.
  pose proof (Z.mod_pos_bound N p Hp) as B.
  assert (HJ : 0 <= N / p) by (apply Z.div_pos; lia).
  set (J := N / p) in *. set (S := N mod p) in *. clearbody J S.
  assert (L : J * t <= M) by nia.
  assert (U : M < (J + 1) * t) by nia.
  split; [nia|].
  symmetry. apply (Z.quot_unique M t J (M - J * t)); nia.
Qed.

Lemma round64_trunc n p :
  Z.abs n < 2 ^ 53 -> Z.pos p < 2 ^ 53 ->
  exists q, round64 (n # p) = Finite q /\ truncate q = n ÷ Z.pos p.
Proof.
  intros Hn Hp. unfold round64. cbn [Qnum Qden].
  destruct ((Z.pos p =? 1) && (Z.abs n <=? 2 ^ 53)) eqn:Efast.
  { apply andb_true_iff in Efast as [E1 _]. apply Z.eqb_eq in E1.
    exists (n # 1). split; [reflexivity|]. unfold truncate. cbn [Qnum Qden].
    now rewrite E1. }
  destruct (Z.eqb_spec n 0) as [E0|E0].
  { exists 0%Q. split; [reflexivity|]. subst n. unfold truncate. cbn [Qnum Qden].
    now rewrite !Z.quot_0_l by lia. }
  assert (Hp2 : 2 <= Z.pos p).
  { apply andb_false_iff in Efast as [E|E].
    - apply Z.eqb_neq in E. lia.
    - apply Z.leb_gt in E. lia. }
  assert (HN : 0 < Z.abs n) by lia.
  pose proof (floor_log2_lower (Z.abs n) (Z.pos p) HN ltac:(lia)) as [Lpos Lneg].
  set (fl := floor_log2 (Z.abs n) (Z.pos p)) in *.
  assert (Hfl : fl < 52).
  { destruct (Z.lt_ge_cases fl 52) as [H|H]; [exact H|exfalso].
    specialize (Lpos ltac:(lia)).
    assert (2 ^ 52 <= 2 ^ fl) by (apply Z.pow_le_mono_r; lia).
    assert (E53 : 2 ^ 53 = 2 * 2 ^ 52) by reflexivity.
    nia. }
  set (e := Z.max (fl - 52) (-1074)).
  assert (He : e < 0) by (unfold e; lia).
  assert (He' : -1074 <= e) by (unfold e; lia).
  destruct (Z.leb_spec 0 e) as [H|_]; [lia|].
  set (t := 2 ^ (- e)).
  assert (Ht : 0 < t) by (apply Z.pow_pos_nonneg; lia).
  assert (Hpt : Z.pos p < 2 * t).
  { unfold t, e. destruct (Z.max_spec (fl - 52) (-1074)) as [[_ ->]|[_ ->]].
    - assert (2 ^ 53 <= 2 ^ 1074) by (apply Z.pow_le_mono_r; lia).
      replace (- -1074) with 1074 by lia. lia.
    - replace (- (fl - 52)) with (52 - fl) by lia.
      assert (E2 : 2 * 2 ^ (52 - fl) = 2 ^ (53 - fl)).
      { rewrite <- Z.pow_succ_r by lia. f_equal; lia. }
      rewrite E2.
      destruct (Z.lt_ge_cases fl 0) as [Hneg|Hnn].
      + specialize (Lneg Hneg).
        assert (E3 : 2 ^ (53 - fl) = 2 ^ 53 * 2 ^ (- fl)).
        { rewrite <- Z.pow_add_r by lia. f_equal; lia. }
        assert (0 < 2 ^ (- fl)) by (apply Z.pow_pos_nonneg; lia).
        rewrite E3. nia.
      + specialize (Lpos Hnn).
        assert (E3 : 2 ^ 53 = 2 ^ fl * 2 ^ (53 - fl)).
        { rewrite <- Z.pow_add_r by lia. f_equal; lia. }
        assert (0 < 2 ^ fl) by (apply Z.pow_pos_nonneg; lia).
        assert (0 < 2 ^ (53 - fl)) by (apply Z.pow_pos_nonneg; lia).
        nia. }
  pose proof (rne_error (n * t) (Z.pos p) ltac:(lia)) as Herr.
  set (m := rne (n * t) (Z.pos p)) in *.
  assert (Hm : Z.abs m < 2 ^ (1024 - e)).
  { assert (E4 : 2 ^ (1024 - e) = 2 ^ 1024 * t).
    { unfold t. rewrite <- Z.pow_add_r by lia. f_equal; lia. }
    assert (2 ^ 53 < 2 ^ 1024) by (apply Z.pow_lt_mono_r; lia).
    rewrite E4. nia. }
  destruct (Z.leb_spec (2 ^ (1024 - e)) (Z.abs m)) as [H|_]; [lia|].
  eexists. split; [reflexivity|].
  rewrite (truncate_comp _ _ (Qred_correct _)).
  unfold truncate. cbn [Qnum Qden]. rewrite Z2Pos.id by exact Ht.
  destruct (Z.lt_ge_cases n 0) as [Hneg|Hnn].
  - destruct (scaled_quot (- n) (Z.pos p) t (- m)) as [_ Hq]; [lia..|].
    rewrite !Z.quot_opp_l in Hq by lia. lia.
  - destruct (scaled_quot n (Z.pos p) t m) as [_ Hq]; [lia..|exact Hq].
Qed.

Lemma digit_not_c_space c : is_digit c = true -> is_c_space c = false.
Proof. intros H. digit_case H. Qed.

Lemma digit_not_point c : is_digit c = true -> Ascii.eqb c "." = false.
Proof. intros H. digit_case H. Qed.

Lemma span_all p a : string_forall p a = true -> span p a = (a, EmptyString).
Proof.
  induction a as [|c a IH]; simpl; [reflexivity|].
  intros H. apply andb_true_iff in H as [Hc Ha]. now rewrite Hc, (IH Ha).
Qed.

Lemma digits_value_app acc a b :
  digits_value acc (a ++ b) = digits_value (digits_value acc a) b.
Proof.
  revert acc. induction a as [|c a IH]; intros acc; simpl; [reflexivity|].
  destruct (is_underscore c); apply IH.
Qed.

Lemma digits_value_acc s : forall acc,
  string_forall is_digit s = true ->
  digits_value acc s = acc * 10 ^ Z.of_nat (String.length s) + digits_value 0 s
  /\ 0 <= digits_value 0 s < 10 ^ Z.of_nat (String.length s).
Proof.
  induction s as [|c s IH]; intros acc H.
  - simpl. lia.
  - cbn [string_forall] in H. apply andb_true_iff in H as [Hc Hs].
    rewrite !(digits_value_digit _ c s Hc).
    destruct (IH (10 * acc + digit_value c) Hs) as [E1 _].
    destruct (IH (10 * 0 + digit_value c) Hs) as [E2 B].
    pose proof (digit_value_range c Hc) as R.
    cbn [String.length]. rewrite Nat2Z.inj_succ, Z.pow_succ_r by lia.
    rewrite E1, E2. split; [ring|]. nia.
Qed.

Lemma parse_decimal_point neg ip fp :
  ip <> EmptyString ->
  string_forall is_digit ip = true ->
  string_forall is_digit fp = true ->
  parse_decimal (sign_text neg ++ ip ++ "." ++ fp)
  = match round64 (decimal_value neg (digits_value 0 (ip ++ fp))
                     (0 - Z.of_nat (String.length fp))) with
    | Finite q => Some (Finite q, false)
    | _ => None
    end.
Proof.
  intros Hne Hip Hfp. destruct ip as [|c ip]; [congruence|]. clear Hne.
  pose proof Hip as Hip'. cbn [string_forall] in Hip'.
  apply andb_true_iff in Hip' as [Hc _].
  unfold parse_decimal.
  assert (E1 : c_sign (lstrip is_c_space (sign_text neg ++ String c ip ++ "." ++ fp))
               = (neg, (String c ip ++ "." ++ fp)%string)).
  { destruct neg; cbn [sign_text append].
    - reflexivity.
    - rewrite lstrip_nonspace by now apply digit_not_c_space.
      unfold c_sign. now rewrite (digit_not_minus c Hc), (digit_not_plus c Hc). }
  rewrite E1.
  rewrite (span_app is_digit (String c ip) ("." ++ fp) Hip) by reflexivity.
  cbn [append]. rewrite Ascii.eqb_refl.
  rewrite (span_all is_digit fp Hfp).
  cbn [scan_exponent lstrip String.eqb].
  reflexivity.
Qed.

Lemma pow10_le a b : (a <= b)%nat -> 10 ^ Z.of_nat a <= 10 ^ Z.of_nat b.
Proof. intros H. apply Z.pow_le_mono_r; lia. Qed.

(** A decimal text of at most 15 digits is read as a float whose cast is the
    integer part of the decimal. *)
Lemma decimal_text_cell neg ip fp :
  ip <> EmptyString ->
  string_forall is_digit ip = true ->
  string_forall is_digit fp = true ->
  (String.length ip + String.length fp <= 15)%nat ->
  exists q,
    classify (VStr (sign_text neg ++ ip ++ "." ++ fp)) = NFloat (Finite q)
    /\ cast_int64 q = (if neg then - digits_value 0 ip else digits_value 0 ip).
Proof.
  intros Hne Hip Hfp Hlen.
  pose proof (parse_decimal_point neg ip fp Hne Hip Hfp) as Hp.
  destruct (digits_value_acc ip 0 Hip) as [_ Bip].
  destruct (digits_value_acc fp (digits_value 0 ip) Hfp) as [Efp Bfp].
  rewrite <- digits_value_app in Efp.
  set (N := digits_value 0 (ip ++ fp)) in *.
  set (I := digits_value 0 ip) in *. set (F := digits_value 0 fp) in *.
  set (k := String.length fp) in *.
  assert (Hk : 10 ^ Z.of_nat k <= 10 ^ 15).
  { change 15 with (Z.of_nat 15). apply pow10_le. lia. }
  assert (Hi : 10 ^ Z.of_nat (String.length ip) * 10 ^ Z.of_nat k <= 10 ^ 15).
  { rewrite <- Z.pow_add_r, <- Nat2Z.inj_add by lia.
    change 15 with (Z.of_nat 15). apply pow10_le. lia. }
  assert (H53 : 10 ^ 15 < 2 ^ 53) by reflexivity.
  assert (Hd : 0 < 10 ^ Z.of_nat k) by (apply Z.pow_pos_nonneg; lia).
  assert (HN : 0 <= N < 2 ^ 53) by nia.
  assert (HI : 0 <= I < 2 ^ 53) by nia.
  assert (Hq : N ÷ 10 ^ Z.of_nat k = I).
  { symmetry. apply (Z.quot_unique N _ I F); lia. }
  set (m := if neg then - N else N).
  assert (Hm : Z.abs m < 2 ^ 53) by (unfold m; destruct neg; lia).
  assert (Hmq : m ÷ 10 ^ Z.of_nat k = if neg then - I else I).
  { unfold m. destruct neg; [|exact Hq]. rewrite Z.quot_opp_l by lia. now rewrite Hq. }
  assert (R : exists q,
             round64 (decimal_value neg N (0 - Z.of_nat k)) = Finite q
             /\ truncate q = if neg then - I else I).
  { unfold decimal_value. fold m.
    destruct (Z.leb_spec 0 (0 - Z.of_nat k)) as [H0|H0].
    - assert (Ek : Z.of_nat k = 0) by lia. rewrite Ek in *.
      replace (0 - 0) with 0 by lia. rewrite Z.pow_0_r, Z.mul_1_r.
      destruct (round64_trunc m 1 Hm ltac:(reflexivity)) as (q & E & T).
      exists q. split; [exact E|]. rewrite T, <- Hmq. now rewrite Z.pow_0_r.
    - replace (- (0 - Z.of_nat k)) with (Z.of_nat k) by lia.
      destruct (round64_trunc m (Z.to_pos (10 ^ Z.of_nat k)) Hm) as (q & E & T).
      { rewrite Z2Pos.id by exact Hd. lia. }
      exists q. split; [exact E|]. rewrite T, Z2Pos.id by exact Hd. exact Hmq. }
  destruct R as (q & Er & Tq). exists q.
  rewrite Er in Hp.
  assert (Ef : floatify (sign_text neg ++ ip ++ "." ++ fp) = Some (Finite q, false)).
  { unfold floatify. now rewrite Hp. }
  split.
  - destruct ip as [|c ip]; [congruence|].
    destruct neg; cbn [sign_text append classify] in *; now rewrite Ef.
  - unfold cast_int64. rewrite Tq.
    assert (B : in_int64 (if neg then - I else I) = true).
    { unfold in_int64, int64_min, int64_max.
      assert (2 ^ 53 < 2 ^ 63) by reflexivity.
      apply andb_true_iff. split; apply Z.leb_le; destruct neg; lia. }
    now rewrite B.
Qed.

Lemma fill_finite col :
  no_infinite col = true ->
  forallb is_finite (map fillna0 (map to_float (map classify col))) = true.
Proof.
  unfold no_infinite. induction col as [|v col IH]; simpl; [reflexivity|].
  intros H. apply andb_true_iff in H as [Hv Hc]. rewrite (IH Hc), andb_true_r.
  unfold is_infinite_cell in Hv.
  destruct (to_float (classify v)); simpl in *; congruence.
Qed.

(** The three arrays of [to_numeric]. *)
Lemma to_numeric_cases col :
  (to_numeric col = IntArray (map int_of (map classify col))
   /\ forallb is_NInt (map classify col) = true
   /\ existsb is_uint (map classify col) = false)
  \/ (to_numeric col = UIntArray (map int_of (map classify col))
      /\ forallb is_NInt (map classify col) = true
      /\ existsb is_sint (map classify col) = false)
  \/ to_numeric col = FloatArray (map to_float (map classify col)).
Proof.
  unfold to_numeric.
  destruct (forallb is_NInt (map classify col)); [|auto].
  destruct (existsb is_uint (map classify col)) eqn:Eu.
  - destruct (existsb is_sint (map classify col)); cbn [andb negb]; auto.
  - rewrite andb_false_r. cbn [andb negb]. auto.
Qed.

Lemma wrap_int64_small z : Z.abs z <= 2 ^ 53 -> wrap_int64 z = z.
Proof.
  intros H. unfold wrap_int64, int64_max.
  assert (2 ^ 53 < 2 ^ 63 - 1) by (vm_compute; reflexivity).
  destruct (Z.ltb_spec (2 ^ 63 - 1) z); [lia|reflexivity].
Qed.

(** Cell by cell: the column is coerced, and each result depends on its own
    cell only. *)
Lemma coerce_int_column_cells col :
  no_infinite col = true ->
  exists ints,
    coerce_int_column col = Ok ints
    /\ List.length ints = List.length col
    /\ forall i v, nth_error col i = Some v ->
         exists r, nth_error ints i = Some r /\ cell_result v r.
Proof.
  intros Hinf. unfold coerce_int_column.
  destruct (to_numeric_cases col) as [(-> & Eint & _)|[(-> & Eint & _)| ->]];
    cbn [fillna astype_int].
  - eexists. split; [reflexivity|]. split; [now rewrite !length_map|].
    intros i v Hv. rewrite !nth_error_map, Hv. cbn [option_map].
    eexists. split; [reflexivity|].
    assert (Hc : is_NInt (classify v) = true).
    { eapply forallb_nth_error; [exact Eint|]. rewrite nth_error_map, Hv. reflexivity. }
    unfold cell_result. destruct (classify v) as [z|f]; [|discriminate].
    split; [intros; discriminate|]. split; [|intros; discriminate].
    intros z' Hz _. now inversion Hz.
  - eexists. split; [reflexivity|]. split; [now rewrite !length_map|].
    intros i v Hv. rewrite !nth_error_map, Hv. cbn [option_map].
    eexists. split; [reflexivity|].
    assert (Hc : is_NInt (classify v) = true).
    { eapply forallb_nth_error; [exact Eint|]. rewrite nth_error_map, Hv. reflexivity. }
    unfold cell_result. destruct (classify v) as [z|f]; [|discriminate].
    split; [intros; discriminate|]. split; [|intros; discriminate].
    intros z' Hz Hs. inversion Hz; subst z'. cbn [int_of]. now apply wrap_int64_small.
  - rewrite (fill_finite col Hinf).
    eexists. split; [reflexivity|]. split; [now rewrite !length_map|].
    intros i v Hv. rewrite !nth_error_map, Hv. cbn [option_map].
    eexists. split; [reflexivity|]. unfold cell_result. split; [|split].
    + intros ->. reflexivity.
    + intros z -> Hz. cbn [to_float]. rewrite round64_small by assumption.
      cbn [fillna0 cast_float]. now apply cast_int64_small.
    + intros q ->. reflexivity.
Qed.

Lemma digit_char_digit n : is_digit (digit_char n) = true.
Proof.
  unfold digit_char.
  assert (H : (n mod 10 < 10)%nat) by (apply Nat.mod_upper_bound; lia).
  destruct (n mod 10)%nat as [|k]; [reflexivity|].
  do 9 (destruct k as [|k]; [reflexivity|]). lia.
Qed.

Lemma strftime_ymd_form t : is_ymd_form (strftime_ymd t) = true.
Proof.
  unfold strftime_ymd, four_digits, two_digits. cbn [append is_ymd_form].
  rewrite !digit_char_digit. reflexivity.
Qed.

Lemma iso_cells_raise shape cells e : iso_cells shape cells = Raise e -> e = ValueError.
Proof.
  revert shape. induction cells as [|v cells IH]; intros shape; simpl; [discriminate|].
  assert (K : forall sh (w : value),
             (r <- iso_cells sh cells ;; Ok (w :: r)) = Raise e -> e = ValueError).
  { intros sh w. destruct (iso_cells sh cells) eqn:E; cbn [bind]; [discriminate|].
    intros H; inversion H; subst. eapply IH; eauto. }
  destruct v as [s|z|f|t|].
  - destruct s as [|c s]; [apply K|].
    destruct (parse_iso (String c s)) as [[t b]|]; [|intros H; now inversion H].
    destruct shape as [b0|]; [|apply K].
    destruct (Bool.eqb b0 b); [apply K|intros H; now inversion H].
  - intros H; now inversion H.
  - destruct f; try (intros H; now inversion H). apply K.
  - apply K.
  - apply K.
Qed.

Lemma iso_raises_exceptions_only : raises_exceptions_only iso_to_datetime.
Proof.
  intros cells e H. apply iso_cells_raise in H. now subst.
Qed.

(** ** The normalizer *)

Section Properties.

Variable read_csv : string -> outcome DataFrame.
Variable to_datetime : list value -> outcome (list value).

(** The date block returns, and touches no other column. *)
Lemma convert_date_column_other df name :
  raises_exceptions_only to_datetime ->
  String.eqb date_column name = false ->
  exists df1, convert_date_column to_datetime df = Ok df1
              /\ get_column name df1 = get_column name df.
Proof.
  intros Hex Hne. unfold convert_date_column.
  destruct (get_column date_column df) as [cells|]; [|eauto].
  destruct (to_datetime cells) as [conv|e] eqn:Etd.
  - destruct (dt_strftime conv) as [fm|e] eqn:Ef.
    + eexists; split; [reflexivity|]. now rewrite !get_set_other.
    + unfold dt_strftime in Ef. destruct (forallb _ _); [discriminate|].
      inversion Ef; subst. cbn [is_Exception].
      eexists; split; [reflexivity|]. now rewrite get_set_other.
  - rewrite (Hex _ _ Etd). eauto.
Qed.

Lemma preprocess_videos_count df threshold col :
  raises_exceptions_only to_datetime ->
  df_empty df = false ->
  get_column "videos_count" df = Some col ->
  no_infinite col = true ->
  exists df' ints,
    preprocess_data to_datetime df threshold = Ok df'
    /\ get_column "videos_count" df' = Some (map VInt ints)
    /\ coerce_int_column col = Ok ints.
Proof.
  intros Hex He Hc Hinf. unfold preprocess_data. rewrite He.
  destruct (convert_date_column_other df "videos_count" Hex eq_refl) as (df1 & -> & Hg).
  cbn [bind int_columns_to_convert convert_int_columns].
  rewrite Hg, Hc.
  destruct (coerce_int_column_cells col Hinf) as (ints & -> & _).
  cbn [bind]. eexists _, ints. split; [reflexivity|].
  split; [|reflexivity]. eapply get_set_same. rewrite Hg. exact Hc.
Qed.

Lemma convert_int_columns_date df df' :
  convert_int_columns int_columns_to_convert df = Ok df' ->
  get_column date_column df' = get_column date_column df.
Proof.
  cbn [int_columns_to_convert convert_int_columns].
  destruct (get_column "videos_count" df) as [col|].
  - destruct (coerce_int_column col) as [ints|e]; cbn [bind]; [|discriminate].
    intros H; inversion H; subst. now apply get_set_other.
  - intros H; now inversion H.
Qed.

Lemma convert_date_column_frame df df1 :
  convert_date_column to_datetime df = Ok df1 ->
  columns df1 = columns df
  /\ forall name, String.eqb date_column name = false ->
       get_column name df1 = get_column name df.
Proof.
  unfold convert_date_column.
  destruct (get_column date_column df) as [cells|]; [|intros H; inversion H; auto].
  destruct (to_datetime cells) as [conv|e].
  - destruct (dt_strftime conv) as [fm|e].
    + intros H; inversion H; subst. split; [now rewrite !columns_set|].
      intros name Hn. now rewrite !get_set_other.
    + destruct (is_Exception e); [|discriminate].
      intros H; inversion H; subst. split; [now rewrite columns_set|].
      intros name Hn. now rewrite get_set_other.
  - destruct (is_Exception e); [|discriminate]. intros H; inversion H; auto.
Qed.

Lemma convert_int_columns_frame df df' :
  convert_int_columns int_columns_to_convert df = Ok df' ->
  columns df' = columns df
  /\ forall name, String.eqb "videos_count" name = false ->
       get_column name df' = get_column name df.
Proof.
  cbn [int_columns_to_convert convert_int_columns].
  destruct (get_column "videos_count" df) as [col|]; [|intros H; inversion H; auto].
  destruct (coerce_int_column col) as [ints|e]; cbn [bind]; [|discriminate].
  intros H; inversion H; subst. split; [now rewrite columns_set|].
  intros name Hn. now rewrite get_set_other.
Qed.

Lemma preprocess_columns df threshold df' :
  preprocess_data to_datetime df threshold = Ok df' -> columns df' = columns df.
Proof.
  unfold preprocess_data. destruct (df_empty df); [intros H; now inversion H|].
  destruct (convert_date_column to_datetime df) as [df1|e] eqn:E1; cbn [bind];
    [|discriminate].
  intros E2.
  destruct (convert_date_column_frame _ _ E1) as [C1 _].
  destruct (convert_int_columns_frame _ _ E2) as [C2 _]. congruence.
Qed.

(** C2, amended.  For a table with a [trending_date] column the date block is
    all or nothing.  When [to_datetime] raises, the table is left as it was and
    the function goes on with the integer columns.  When it converts the
    column to a datetime column, every cell is rewritten: a time stamp to its
    [YYYY-MM-DD] text, a missing value (NaT) to the missing marker NaN.  The
    integer step leaves the date column as the date block left it. *)
Theorem date_column_all_or_nothing (df : DataFrame) (threshold : Q) (cells : list value) :
  df_empty df = false ->
  get_column date_column df = Some cells ->
  (forall e, to_datetime cells = Raise e -> is_Exception e = true ->
     convert_date_column to_datetime df = Ok df
     /\ preprocess_data to_datetime df threshold
        = convert_int_columns int_columns_to_convert df)
  /\ (forall converted,
        to_datetime cells = Ok converted ->
        forallb is_datetimelike converted = true ->
        exists df1,
          convert_date_column to_datetime df = Ok df1
          /\ get_column date_column df1 = Some (map strftime_cell converted)
          /\ (forall i t, nth_error converted i = Some (VTimestamp t) ->
                nth_error (map strftime_cell converted) i = Some (VStr (strftime_ymd t))
                /\ is_ymd_form (strftime_ymd t) = true)
          /\ (forall i, nth_error converted i = Some VNaT ->
                nth_error (map strftime_cell converted) i = Some (VFloat NaN)))
  /\ (forall df1 df',
        convert_date_column to_datetime df = Ok df1 ->
        preprocess_data to_datetime df threshold = Ok df' ->
        get_column date_column df' = get_column date_column df1).
Proof.
  intros He Hc. split; [|split].
  - intros e Hr Hex. unfold preprocess_data. rewrite He.
    assert (Hb : convert_date_column to_datetime df = Ok df).
    { unfold convert_date_column. now rewrite Hc, Hr, Hex. }
    rewrite Hb. split; reflexivity.
  - intros converted Hok Hdt. unfold convert_date_column.
    rewrite Hc, Hok. unfold dt_strftime. rewrite Hdt.
    eexists. split; [reflexivity|]. split.
    + eapply get_set_same. eapply get_set_same. exact Hc.
    + split.
      * intros i t Hi. rewrite nth_error_map, Hi. cbn [option_map strftime_cell].
        split; [reflexivity|apply strftime_ymd_form].
      * intros i Hi. rewrite nth_error_map, Hi. reflexivity.
  - intros df1 df' Hb. unfold preprocess_data. rewrite He, Hb. cbn [bind].
    apply convert_int_columns_date.
Qed.

(** C3, amended.  For a table with a [videos_count] column none of whose
    cells stands for an infinity, [preprocess_data] returns a table whose
    [videos_count] cells are all integers, one per row, of either sign; a cell
    that is no number becomes 0. *)
Theorem videos_count_integers (df : DataFrame) (threshold : Q) (col : list value) :
  raises_exceptions_only to_datetime ->
  df_empty df = false ->
  get_column "videos_count" df = Some col ->
  no_infinite col = true ->
  exists df' ints,
    preprocess_data to_datetime df threshold = Ok df'
    /\ get_column "videos_count" df' = Some (map VInt ints)
    /\ List.length ints = List.length col
    /\ forall i v, nth_error col i = Some v -> classify v = NFloat NaN ->
         nth_error ints i = Some 0.
Proof.
  intros Hex He Hc Hinf.
  destruct (preprocess_videos_count df threshold col Hex He Hc Hinf)
    as (df' & ints & Hp & Hg & Hco).
  destruct (coerce_int_column_cells col Hinf) as (ints' & Hco' & Hlen & Hcells).
  assert (ints' = ints) by congruence. subst ints'.
  exists df', ints. repeat split; auto.
  intros i v Hi Hnan. destruct (Hcells i v Hi) as (r & Hr & Hres & _).
  now rewrite Hr, (Hres Hnan).
Qed.


Lemma classify_fractional s q :
  floatify s = Some (Finite q, false) -> classify (VStr s) = NFloat (Finite q).
Proof.
  intros H. destruct s as [|c s]; [vm_compute in H; discriminate|].
  cbn [classify]. now rewrite H.
Qed.

(** C10, amended.  In a table that is not empty and whose [videos_count]
    column holds no cell that stands for an infinity, when [to_datetime]
    raises nothing outside Exception, a fractional cell is taken as a number
    and cast to an integer by dropping the fraction, toward zero, not by
    rounding.  A decimal text (an optional minus sign, digits, a point,
    digits; at most 15 digits in all) becomes the integer written before the
    point, with the sign.  More generally a text that the numeric parser
    reads as a finite float with a point or an exponent becomes that float
    without its fraction when this fits 64 signed bits: the result lies
    between zero and the float and is less than one away from it.  So
    ["3.7"] gives 3, ["-2.9"] gives -2, and ["2.5"], ["3.5"] give 2 and 3. *)
Theorem fractional_cells_truncate (df : DataFrame) (threshold : Q) (col : list value) :
  raises_exceptions_only to_datetime ->
  df_empty df = false ->
  get_column "videos_count" df = Some col ->
  no_infinite col = true ->
  exists df' ints,
    preprocess_data to_datetime df threshold = Ok df'
    /\ get_column "videos_count" df' = Some (map VInt ints)
    /\ (forall i neg ip fp,
          nth_error col i = Some (VStr (sign_text neg ++ ip ++ "." ++ fp)) ->
          ip <> EmptyString ->
          string_forall is_digit ip = true ->
          string_forall is_digit fp = true ->
          (String.length ip + String.length fp <= 15)%nat ->
          nth_error ints i
          = Some (if neg then - digits_value 0 ip else digits_value 0 ip))
    /\ (forall i s q,
          nth_error col i = Some (VStr s) ->
          floatify s = Some (Finite q, false) ->
          in_int64 (truncate q) = true ->
          nth_error ints i = Some (truncate q)
          /\ (0 <= q -> inject_Z (truncate q) <= q /\ q < inject_Z (truncate q) + 1)%Q
          /\ (q <= 0 -> inject_Z (truncate q) - 1 < q /\ q <= inject_Z (truncate q))%Q)
    /\ coerce_int_column [VStr "3.7"; VStr "-2.9"; VStr "2.5"; VStr "3.5"]
       = Ok [3; -2; 2; 3].
Proof.
  intros Hex He Hc Hinf.
  destruct (preprocess_videos_count df threshold col Hex He Hc Hinf)
    as (df' & ints & Hp & Hg & Hco).
  destruct (coerce_int_column_cells col Hinf) as (ints' & Hco' & _ & Hcells).
  assert (ints' = ints) by congruence. subst ints'.
  exists df', ints. split; [exact Hp|]. split; [exact Hg|]. split; [|split].
  - intros i neg ip fp Hi Hne Hip Hfp Hlen.
    destruct (decimal_text_cell neg ip fp Hne Hip Hfp Hlen) as (q & Hq & Hcast).
    destruct (Hcells i _ Hi) as (r & Hri & _ & _ & Hr).
    now rewrite Hri, (Hr q Hq), Hcast.
  - intros i s q Hi Hf Hr.
    split; [|split; apply truncate_toward_zero].
    destruct (Hcells i _ Hi) as (r & Hri & _ & _ & Hq).
    rewrite Hri, (Hq q (classify_fractional _ _ Hf)).
    unfold cast_int64. now rewrite Hr.
  - vm_compute. reflexivity.
Qed.

(** C9.  The threshold has no effect: [preprocess_data] returns the same
    outcome for any two thresholds. *)
Theorem threshold_unused (df : DataFrame) (t1 t2 : Q) :
  preprocess_data to_datetime df t1 = preprocess_data to_datetime df t2.
Proof.
  unfold preprocess_data. destruct (df_empty df); reflexivity.
Qed.

(** ** The loader *)

Lemma load_data_caught path e :
  read_csv path = Raise e -> is_Exception e = true ->
  load_data read_csv path = Ok empty_DataFrame.
Proof.
  intros H He. unfold load_data. rewrite H.
  destruct e; try reflexivity; discriminate He.
Qed.

(** C7.  [load_data] returns the parsed table when the read succeeds, and the
    empty table (no row, no column) when the read raises FileNotFoundError or
    any other Exception; the main loop then leaves the data base as it is
    for that file. *)
Theorem load_data_never_propagates (path : string) :
  (forall df, read_csv path = Ok df -> load_data read_csv path = Ok df)
  /\ (read_csv path = Raise FileNotFoundError ->
      load_data read_csv path = Ok empty_DataFrame)
  /\ (forall e, read_csv path = Raise e -> is_Exception e = true ->
        load_data read_csv path = Ok empty_DataFrame)
  /\ nrows empty_DataFrame = 0%nat
  /\ df_empty empty_DataFrame = true
  /\ (forall dir name engine flag e,
        path = path_join dir name ->
        read_csv path = Raise e -> is_Exception e = true ->
        ingest_file read_csv to_datetime dir name engine flag = Ok (engine, flag)).
Proof.
  split; [|split; [|split; [|split; [|split]]]]; try reflexivity.
  - intros df H. unfold load_data. now rewrite H.
  - intros H. now apply load_data_caught with FileNotFoundError.
  - apply load_data_caught.
  - intros dir name engine flag e -> H He. unfold ingest_file.
    destruct (re_match name) as [g|] eqn:Eg; [|reflexivity].
    destruct (re_match_extract dir name g Eg) as (y & _ & ->). cbn [bind].
    destruct (data_already_exist engine (Some y)); [reflexivity|].
    rewrite (load_data_caught _ e H He). reflexivity.
Qed.

(** ** The command line *)

Lemma getopt_unknown_short c rest more :
  Ascii.eqb c "f" = false -> Ascii.eqb c "-" = false ->
  getopt (String "-" (String c rest) :: more) unixOptions gnuOptions = Raise GetoptError.
Proof.
  intros Hf Hm. unfold getopt. cbn [getopt_loop].
  assert (H1 : starts_with "-" (String "-" (String c rest)) = true) by reflexivity.
  assert (H2 : String.eqb (String "-" (String c rest)) "-" = false) by reflexivity.
  assert (H3 : String.eqb (String "-" (String c rest)) "--" = false).
  { cbn [String.eqb]. rewrite Ascii.eqb_refl, Hm. reflexivity. }
  assert (H4 : starts_with "--" (String "-" (String c rest)) = false).
  { unfold starts_with. cbn [strip_prefix]. rewrite Ascii.eqb_refl.
    rewrite (Ascii.eqb_sym "-" c), Hm. reflexivity. }
  rewrite H1, H2, H3, H4. cbn [andb negb].
  assert (H5 : substring 1 (String.length (String "-" (String c rest)) - 1)
                 (String "-" (String c rest)) = String c rest).
  { cbn [String.length]. rewrite Nat.sub_1_r. cbn [Nat.pred substring].
    now rewrite substring_full. }
  rewrite H5. cbn [do_shorts unixOptions short_has_arg].
  rewrite Hf. cbn [andb].
  replace (negb (Ascii.eqb ":" ":")) with false by reflexivity.
  rewrite andb_false_r. reflexivity.
Qed.

Lemma substring_skip2 opt :
  substring 2 (String.length ("--" ++ opt) - 2) ("--" ++ opt) = opt.
Proof.
  cbn [append String.length Nat.sub substring]. rewrite Nat.sub_0_r.
  apply substring_full.
Qed.

Lemma getopt_unknown_long opt more :
  starts_with (fst (split_eq opt)) "file=" = false ->
  getopt (("--" ++ opt)%string :: more) unixOptions gnuOptions = Raise GetoptError.
Proof.
  intros Hp. unfold getopt. cbn [getopt_loop].
  assert (Hne : opt <> EmptyString) by (intros ->; discriminate Hp).
  assert (H1 : starts_with "-" ("--" ++ opt) = true) by reflexivity.
  assert (H2 : String.eqb ("--" ++ opt) "-" = false) by reflexivity.
  assert (H3 : String.eqb ("--" ++ opt) "--" = false).
  { destruct opt; [contradiction|reflexivity]. }
  assert (H4 : starts_with "--" ("--" ++ opt) = true) by reflexivity.
  rewrite H1, H2, H3, H4. cbn [andb negb]. rewrite substring_skip2.
  unfold do_longs. destruct (split_eq opt) as [opt1 optarg]. cbn [fst] in Hp.
  unfold long_has_args, gnuOptions. cbn [filter]. rewrite Hp. reflexivity.
Qed.

(** C8, amended.  [parse_arguments] ends the process with status 2 whenever
    [getopt] rejects the command line, as it does for a short option other
    than [-f] and for a long option whose name does not begin [file]; the
    main flow never calls [parse_arguments], so what it does and the status it
    exits with do not depend on the command line. *)
Theorem invalid_option_exit_code :
  (forall argv, getopt (tl argv) unixOptions gnuOptions = Raise GetoptError ->
     parse_arguments argv = Raise (SystemExit 2))
  /\ (forall prog c rest more,
        Ascii.eqb c "f" = false -> Ascii.eqb c "-" = false ->
        parse_arguments (prog :: String "-" (String c rest) :: more)
        = Raise (SystemExit 2))
  /\ (forall prog opt more,
        starts_with (fst (split_eq opt)) "file=" = false ->
        parse_arguments (prog :: ("--" ++ opt)%string :: more) = Raise (SystemExit 2))
  /\ (forall argv argv' w,
        main read_csv to_datetime argv w = main read_csv to_datetime argv' w).
Proof.
  assert (G : forall argv, getopt (tl argv) unixOptions gnuOptions = Raise GetoptError ->
                parse_arguments argv = Raise (SystemExit 2)).
  { intros argv H. unfold parse_arguments. now rewrite H. }
  split; [exact G|]. split; [|split].
  - intros prog c rest more Hf Hm. apply G. cbn [tl]. now apply getopt_unknown_short.
  - intros prog opt more Hp. apply G. cbn [tl]. now apply getopt_unknown_long.
  - reflexivity.
Qed.

(** ** The ingestion loop *)

Lemma extends_refl s : extends s s.
Proof.
  destruct s as [[c r]|]; simpl; [|exact I].
  exists []. now rewrite app_nil_r.
Qed.

Lemma extends_trans s t u : extends s t -> extends t u -> extends s u.
Proof.
  destruct s as [tb|]; simpl; [|auto].
  intros (m1 & ->). simpl. intros (m2 & ->).
  exists (m1 ++ m2). now rewrite app_assoc.
Qed.

Lemma save_extends df s : extends s (save_to_database df s).
Proof.
  unfold save_to_database. destruct (df_empty df); [apply extends_refl|].
  destruct (negb (storable df)); [apply extends_refl|].
  destruct s as [tb|]; [|exact I].
  destruct (unique_labels (columns df) && forallb _ _).
  - simpl. eexists. reflexivity.
  - apply extends_refl.
Qed.

(** Once found, a year stays found. *)
Lemma exist_mono s t y :
  extends s t -> data_already_exist s y = true -> data_already_exist t y = true.
Proof.
  destruct y as [y|]; [|discriminate].
  destruct s as [tb|]; simpl; [|discriminate].
  intros (more & ->). simpl.
  destruct (has_column "trending_date" (tcols tb)); [|discriminate].
  rewrite existsb_app. intros ->. reflexivity.
Qed.

Lemma same_column_sym a b : same_column a b = same_column b a.
Proof. unfold same_column. apply String.eqb_sym. Qed.

Lemma same_column_trans a b c :
  same_column a b = true -> same_column b c = true -> same_column a c = true.
Proof.
  unfold same_column. intros H1 H2.
  apply String.eqb_eq in H1, H2. apply String.eqb_eq. congruence.
Qed.

Lemma lookup_same a b r : same_column a b = true -> lookup a r = lookup b r.
Proof.
  intros H. induction r as [|[n v] r IH]; simpl; [reflexivity|].
  rewrite IH. destruct (same_column n a) eqn:Ea.
  - now rewrite (same_column_trans n a b Ea H).
  - destruct (same_column n b) eqn:Eb; [|reflexivity].
    rewrite same_column_sym in H.
    rewrite (same_column_trans n b a Eb H) in Ea. discriminate.
Qed.

Lemma has_column_In name cols :
  has_column name cols = true <-> exists c, In c cols /\ same_column name c = true.
Proof. unfold has_column. apply existsb_exists. Qed.

(** What the stored row gives to a column. *)
Lemma lookup_stored_row name cols r :
  lookup name (stored_row cols r)
  = if has_column name cols
    then Some (match lookup name r with Some v => v | None => VFloat NaN end)
    else None.
Proof.
  unfold stored_row, has_column.
  induction cols as [|c cols IH]; simpl; [reflexivity|].
  rewrite (same_column_sym name c).
  destruct (same_column c name) eqn:E; simpl; [|exact IH].
  now rewrite (lookup_same c name r E).
Qed.

Lemma row_of_year_stored y cols r :
  has_column "trending_date" cols = true ->
  row_of_year y (stored_row cols r) = row_of_year y r.
Proof.
  intros H. unfold row_of_year. rewrite lookup_stored_row, H.
  destruct (lookup "trending_date" r); reflexivity.
Qed.

Lemma lookup_row_at name df i v :
  lookup name (row_at df i) = Some v -> has_column name (columns df) = true.
Proof.
  unfold row_at, columns, has_column.
  induction df as [|[n c] df IH]; simpl; [discriminate|].
  rewrite (same_column_sym name n).
  destruct (same_column n name); simpl; [reflexivity|exact IH].
Qed.

Lemma rows_have_date y df :
  existsb (row_of_year y) (rows_of df) = true ->
  has_column "trending_date" (columns df) = true.
Proof.
  intros H. apply existsb_exists in H as (r & Hin & Hr).
  unfold rows_of in Hin. apply in_map_iff in Hin as (i & <- & _).
  unfold row_of_year in Hr.
  destruct (lookup "trending_date" (row_at df i)) as [v|] eqn:E; [|discriminate].
  eapply lookup_row_at; eauto.
Qed.

Lemma mem_string_In x l : mem_string x l = true <-> In x l.
Proof.
  unfold mem_string. rewrite existsb_exists. split.
  - intros (y & Hin & He). apply String.eqb_eq in He. now subst.
  - intros H. exists x. split; [exact H|apply String.eqb_refl].
Qed.

(** A frame with the date column, all of whose columns the table has, finds
    the date column in the table. *)
Lemma date_column_in_table df cols :
  has_column "trending_date" (columns df) = true ->
  forallb (fun c => has_column c cols) (columns df) = true ->
  has_column "trending_date" cols = true.
Proof.
  intros Hd Hf. apply has_column_In in Hd as (l & Hl & Hs).
  rewrite forallb_forall in Hf. specialize (Hf l Hl).
  apply has_column_In in Hf as (c & Hc & Hlc).
  apply has_column_In. exists c. split; [exact Hc|].
  eapply same_column_trans; eauto.
Qed.

(** The rows appended to a table with the date column are of the years of
    the frame's rows. *)
Lemma existsb_stored_rows y cols rows :
  has_column "trending_date" cols = true ->
  existsb (row_of_year y) (map (stored_row cols) rows) = existsb (row_of_year y) rows.
Proof.
  intros H. induction rows as [|r rows IH]; simpl; [reflexivity|].
  now rewrite IH, row_of_year_stored.
Qed.

(** An append of rows of the year either makes the year found, or fails, now
    and on every later state of the table. *)
Lemma save_year_or_quiet df s y :
  df_empty df = false ->
  distinct_columns (columns df) = true ->
  existsb (row_of_year y) (rows_of df) = true ->
  data_already_exist (save_to_database df s) (Some y) = true
  \/ (save_to_database df s = s
      /\ forall t, extends s t -> save_to_database df t = t).
Proof.
  intros He Hdist Hr. pose proof (rows_have_date _ _ Hr) as Hd.
  unfold save_to_database. rewrite He.
  destruct (negb (storable df)); [right; auto|].
  destruct s as [tb|].
  - destruct (unique_labels (columns df)
              && forallb (fun c => has_column c (tcols tb)) (columns df)) eqn:Ef.
    + left. apply andb_true_iff in Ef as [_ Ef].
      pose proof (date_column_in_table _ _ Hd Ef) as Ht.
      cbn [data_already_exist tcols trows].
      now rewrite Ht, existsb_app, existsb_stored_rows, Hr, orb_true_r.
    + right. split; [reflexivity|].
      intros t (more & ->). cbn [tcols]. now rewrite Ef.
  - left. rewrite Hdist. cbn [data_already_exist tcols trows]. now rewrite Hd, Hr.
Qed.

Section Ingestion.

Variable dir : string.

Lemma ingest_file_extends name s flag s' flag' :
  ingest_file read_csv to_datetime dir name s flag = Ok (s', flag') -> extends s s'.
Proof.
  unfold ingest_file.
  destruct (re_match name); [|intros H; inversion H; apply extends_refl].
  destruct (extract_year_from_path _) as [[y|]|e]; cbn [bind];
    [|intros H; inversion H; apply extends_refl|discriminate].
  destruct (data_already_exist s (Some y)); [intros H; inversion H; apply extends_refl|].
  destruct (load_data _ _) as [raw|e]; cbn [bind]; [|discriminate].
  destruct (df_empty raw); cbn [negb]; [intros H; inversion H; apply extends_refl|].
  destruct (preprocess_data _ _ _) as [pr|e]; cbn [bind]; [|discriminate].
  destruct (df_empty pr); cbn [negb]; intros H; inversion H;
    [apply extends_refl|apply save_extends].
Qed.

Lemma ingest_files_extends names s flag db1 f1 err :
  ingest_files read_csv to_datetime dir names s flag = (db1, f1, err) -> extends s db1.
Proof.
  revert s flag. induction names as [|n names IH]; intros s flag; simpl.
  - intros H; inversion H; apply extends_refl.
  - destruct (ingest_file read_csv to_datetime dir n s flag) as [[s' fl']|e] eqn:E.
    + intros H. eapply extends_trans; [eapply ingest_file_extends; eauto|eauto].
    + intros H; inversion H; apply extends_refl.
Qed.

(** Whether a turn raises does not depend on the flag. *)
Lemma ingest_file_raise name s flag flag' e :
  ingest_file read_csv to_datetime dir name s flag = Raise e ->
  ingest_file read_csv to_datetime dir name s flag' = Raise e.
Proof.
  unfold ingest_file.
  destruct (re_match name); [|discriminate].
  destruct (extract_year_from_path _) as [[y|]|e']; cbn [bind]; [|discriminate|auto].
  destruct (data_already_exist s (Some y)); [discriminate|].
  destruct (load_data _ _) as [raw|e']; cbn [bind]; [|auto].
  destruct (df_empty raw); cbn [negb]; [discriminate|].
  destruct (preprocess_data _ _ _) as [pr|e']; cbn [bind]; [|auto].
  destruct (df_empty pr); discriminate.
Qed.

(** A file whose turn is over leaves every later state of the data base as
    it is. *)
Lemma ingest_file_quiet name s flag s' flag1 t flag2 :
  own_year_rows read_csv to_datetime dir [name] ->
  distinct_labels read_csv dir [name] ->
  ingest_file read_csv to_datetime dir name s flag = Ok (s', flag1) ->
  extends s' t ->
  exists flag3, ingest_file read_csv to_datetime dir name t flag2 = Ok (t, flag3).
Proof.
  intros Hown Hdist H1 Hext. pose proof (ingest_file_extends _ _ _ _ _ H1) as Hss'.
  unfold ingest_file in *.
  destruct (re_match name) as [g|] eqn:Eg; [|eauto].
  destruct (extract_year_from_path _) as [[y|]|e] eqn:Ey; cbn [bind] in *;
    [|eauto|discriminate].
  destruct (data_already_exist t (Some y)) eqn:Et; [eauto|].
  assert (Es' : data_already_exist s' (Some y) = false).
  { destruct (data_already_exist s' (Some y)) eqn:E; [|reflexivity].
    rewrite (exist_mono _ _ _ Hext E) in Et. discriminate. }
  assert (Es : data_already_exist s (Some y) = false).
  { destruct (data_already_exist s (Some y)) eqn:E; [|reflexivity].
    rewrite (exist_mono _ _ _ Hss' E) in Es'. discriminate. }
  rewrite Es in H1.
  destruct (load_data _ _) as [raw|e] eqn:El; cbn [bind] in *; [|discriminate].
  destruct (df_empty raw) eqn:Er; cbn [negb] in *; [eauto|].
  destruct (preprocess_data _ _ _) as [pr|e] eqn:Ep; cbn [bind] in *; [|discriminate].
  destruct (df_empty pr) eqn:Epr; cbn [negb] in *; [eauto|].
  inversion H1; subst s' flag1.
  assert (Hrows : existsb (row_of_year y) (rows_of pr) = true).
  { apply (Hown name y raw pr); auto; [now left|congruence]. }
  assert (Hcols : distinct_columns (columns pr) = true).
  { rewrite (preprocess_columns _ _ _ Ep).
    apply (Hdist name raw); auto; [now left|congruence]. }
  destruct (save_year_or_quiet pr s y Epr Hcols Hrows) as [E|[Hsame Hq]].
  - rewrite E in Es'. discriminate.
  - rewrite Hsame in Hext. exists true. now rewrite (Hq _ Hext).
Qed.

Lemma ingest_files_quiet names : forall s flag db1 f1 err t flag',
  own_year_rows read_csv to_datetime dir names ->
  distinct_labels read_csv dir names ->
  ingest_files read_csv to_datetime dir names s flag = (db1, f1, err) ->
  extends db1 t ->
  (err <> None -> t = db1) ->
  exists f2 err2, ingest_files read_csv to_datetime dir names t flag' = (t, f2, err2).
Proof.
  induction names as [|n names IH];
    intros s flag db1 f1 err t flag' Hown Hdist H1 Hext Herr.
  - simpl. eauto.
  - simpl in H1.
    destruct (ingest_file read_csv to_datetime dir n s flag) as [[s' fl1]|e] eqn:E.
    + assert (Hs' : extends s' t).
      { eapply extends_trans; [eapply ingest_files_extends; eauto|exact Hext]. }
      destruct (ingest_file_quiet n s flag s' fl1 t flag') as (fl3 & Hq); auto.
      { intros name y raw pr [<-|[]]. apply Hown. now left. }
      { intros name raw [<-|[]]. apply Hdist. now left. }
      simpl. rewrite Hq. eapply IH; eauto.
      * intros name y raw pr Hin. apply Hown. now right.
      * intros name raw Hin. apply Hdist. now right.
    + inversion H1; subst db1 f1 err.
      rewrite (Herr ltac:(discriminate)).
      simpl. rewrite (ingest_file_raise _ _ _ flag' _ E). eauto.
Qed.

Lemma ingest_files_idempotent names s :
  own_year_rows read_csv to_datetime dir names ->
  distinct_labels read_csv dir names ->
  fst (fst (ingest_files read_csv to_datetime dir names
              (fst (fst (ingest_files read_csv to_datetime dir names s false))) false))
  = fst (fst (ingest_files read_csv to_datetime dir names s false)).
Proof.
  intros Hown Hdist.
  destruct (ingest_files read_csv to_datetime dir names s false) as [[db1 f1] err] eqn:E1.
  cbn [fst].
  destruct (ingest_files_quiet names s false db1 f1 err db1 false Hown Hdist E1
              (extends_refl _) (fun _ => eq_refl)) as (f2 & err2 & ->).
  reflexivity.
Qed.

End Ingestion.

Lemma main_database argv w :
  fst (main read_csv to_datetime argv w)
  = match create_db_engine w with
    | Raise _ => stored w
    | Ok engine =>
        if negb (data_dir_exists w) || listdir_fails w then engine
        else fst (fst (ingest_files read_csv to_datetime (data_directory_of w)
                         (listing w) engine false))
    end.
Proof.
  unfold main. destruct (create_db_engine w); [|reflexivity].
  destruct (negb (data_dir_exists w)); [reflexivity|].
  destruct (listdir_fails w); [reflexivity|].
  destruct (ingest_files _ _ _ _ _ _) as [[db f] err]. reflexivity.
Qed.

Lemma create_db_engine_stored w db :
  create_db_engine (with_stored w db)
  = match create_db_engine w with Ok _ => Ok db | Raise e => Raise e end.
Proof.
  unfold create_db_engine, with_stored. cbn.
  destruct (negb (db_dir_exists w) && makedirs_fails w); [reflexivity|].
  destruct (connect_fails w); reflexivity.
Qed.

Lemma create_db_engine_Ok w engine : create_db_engine w = Ok engine -> engine = stored w.
Proof.
  unfold create_db_engine.
  destruct (negb (db_dir_exists w) && makedirs_fails w); [discriminate|].
  destruct (connect_fails w); [discriminate|]. intros H. now inversion H.
Qed.

(** C1, amended.  Year-level idempotence.  A file that passes the filter of
    the main loop names a year, and once the query of [data_already_exist]
    finds that year (the persisted table holds a row whose [trending_date]
    begins with the year's numeral without leading zeros and a hyphen), a run
    skips the file and appends none of its rows.  When every file that the
    filter accepts and whose normalized table is not empty has such a row for
    the year of its own name, and no accepted file has two column labels that
    differ at most in the case of their letters, a second run over the same
    directory leaves the persisted table as the first run left it, and so the
    number of rows of every year. *)
Theorem rerun_appends_nothing (argv : list string) (w : world) :
  (forall name g engine flag,
      re_match name = Some g ->
      exists y,
        py_int g = Ok y
        /\ extract_year_from_path (path_join (data_directory_of w) name) = Ok (Some y)
        /\ (data_already_exist engine (Some y) = true ->
            ingest_file read_csv to_datetime (data_directory_of w) name engine flag
            = Ok (engine, flag)))
  /\ (own_year_rows read_csv to_datetime (data_directory_of w) (listing w) ->
      distinct_labels read_csv (data_directory_of w) (listing w) ->
      fst (main read_csv to_datetime argv
             (with_stored w (fst (main read_csv to_datetime argv w))))
      = fst (main read_csv to_datetime argv w)
      /\ forall year,
           count_year year
             (fst (main read_csv to_datetime argv
                     (with_stored w (fst (main read_csv to_datetime argv w)))))
           = count_year year (fst (main read_csv to_datetime argv w))).
Proof.
  split.
  - intros name g engine flag Hg.
    destruct (re_match_extract (data_directory_of w) name g Hg) as (y & Hy & He).
    exists y. split; [exact Hy|]. split; [exact He|].
    intros Hex. unfold ingest_file. rewrite Hg, He. cbn [bind]. now rewrite Hex.
  - intros Hown Hdist.
    assert (E : fst (main read_csv to_datetime argv
                       (with_stored w (fst (main read_csv to_datetime argv w))))
                = fst (main read_csv to_datetime argv w)).
    { rewrite (main_database argv (with_stored w _)), create_db_engine_stored.
      rewrite (main_database argv w).
      destruct (create_db_engine w) as [engine|e] eqn:Ec; [|reflexivity].
      cbn [with_stored data_dir_exists listdir_fails listing].
      destruct (negb (data_dir_exists w) || listdir_fails w); [reflexivity|].
      change (data_directory_of (with_stored w _)) with (data_directory_of w).
      now apply ingest_files_idempotent. }
    split; [exact E|]. intros year. now rewrite E.
Qed.

End Properties.

(** * Instances *)

(** C5 at [data/trending_by_time_2018.csv]. *)
Lemma extract_year_strict_witness :
  extract_year_from_path "data/trending_by_time_2018.csv" = Ok (Some 2018).
Proof.
  exact (extract_year_strict "data/" "2" "0" "1" "8" eq_refl eq_refl eq_refl eq_refl).
Defined.

(** C6 as stated fails: the stem [7] does not end in four digits, nor does
    the stem [clip -12], and both paths give a year. *)
Lemma short_stem_gives_year :
  (re_search "7.csv" = None
   /\ fallback_stem "7.csv" = Ok "7"
   /\ ends_with_four_digits "7" = false
   /\ extract_year_from_path "7.csv" = Ok (Some 7))
  /\ (re_search "data/clip -12.csv" = None
      /\ fallback_stem "data/clip -12.csv" = Ok "clip -12"
      /\ ends_with_four_digits "clip -12" = false
      /\ extract_year_from_path "data/clip -12.csv" = Ok (Some (-12))).
Proof. repeat split; vm_compute; reflexivity. Qed.

(** C6, amended, at [archive/videos.csv]. *)
Lemma extract_year_fallback_witness :
  extract_year_from_path "archive/videos.csv" = Ok None.
Proof.
  destruct (extract_year_fallback "archive/videos.csv") as (t & Ht & _ & Hnone & _).
  apply Hnone; [reflexivity|].
  vm_compute in Ht. injection Ht as <-.
  intros Hl. apply py_int_complete in Hl as (z & Hz). vm_compute in Hz. discriminate.
Defined.

(** C2 as stated fails: with a blank date in the column, the column is
    neither left as it was nor rewritten to [YYYY-MM-DD] throughout. *)
Lemma blank_date_breaks_dichotomy :
  preprocess_data iso_to_datetime
    [("trending_date", [VStr "2020-05-01T10:00:00"; VStr EmptyString])] default_threshold
  = Ok [("trending_date", [VStr "2020-05-01"; VFloat NaN])]
  /\ forallb is_ymd_cell [VStr "2020-05-01"; VFloat NaN] = false
  /\ [VStr "2020-05-01"; VFloat NaN] <> [VStr "2020-05-01T10:00:00"; VStr EmptyString].
Proof.
  split; [vm_compute; reflexivity|]. split; [reflexivity|discriminate].
Qed.

(** C2, amended, at the scenario's file. *)
Lemma date_column_all_or_nothing_witness :
  exists df1,
    convert_date_column iso_to_datetime scenario_file = Ok df1
    /\ get_column date_column df1 = Some [VStr "2020-05-01"; VStr "2020-05-02"].
Proof.
  destruct (date_column_all_or_nothing iso_to_datetime scenario_file default_threshold
              [VStr "2020-05-01T10:00:00"; VStr "2020-05-02T00:00:00"] eq_refl eq_refl)
    as (_ & H & _).
  destruct (H [VTimestamp {| ts_year := 2020; ts_month := 5; ts_day := 1 |};
               VTimestamp {| ts_year := 2020; ts_month := 5; ts_day := 2 |}]
              eq_refl eq_refl) as (df1 & H1 & H2 & _).
  exists df1. split; [exact H1|exact H2].
Defined.

(** C3 as stated fails: a negative count stays negative. *)
Lemma negative_count_kept :
  preprocess_data iso_to_datetime [("videos_count", [VStr "-5"; VStr "x"])] default_threshold
  = Ok [("videos_count", [VInt (-5); VInt 0])]
  /\ preprocess_data iso_to_datetime [("videos_count", [VInt (-5); VInt 3])] default_threshold
     = Ok [("videos_count", [VInt (-5); VInt 3])]
  /\ -5 < 0.
Proof. repeat split; vm_compute; reflexivity. Qed.

(** C3, amended, at the scenario's file. *)
Lemma videos_count_integers_witness :
  exists df' ints,
    preprocess_data iso_to_datetime scenario_file default_threshold = Ok df'
    /\ get_column "videos_count" df' = Some (map VInt ints)
    /\ List.length ints = 2%nat
    /\ forall i v, nth_error [VStr "5"; VStr "x"] i = Some v -> classify v = NFloat NaN ->
         nth_error ints i = Some 0.
Proof.
  exact (videos_count_integers iso_to_datetime scenario_file default_threshold
           [VStr "5"; VStr "x"] iso_raises_exceptions_only eq_refl eq_refl eq_refl).
Defined.



(** C10 as stated fails, not every table with a fractional cell has it
    truncated: beside a cell that spells an infinity the function raises and
    returns no table, and a fractional number beyond the 64-bit range does
    not become its integer part. *)
Lemma fraction_not_always_truncated :
  preprocess_data iso_to_datetime
    [("videos_count", [VStr "3.7"; VStr "inf"])] default_threshold
  = Raise ValueError
  /\ exists r,
       preprocess_data iso_to_datetime
         [("videos_count", [VStr "10000000000000000000.5"])] default_threshold
       = Ok [("videos_count", [VInt r])]
       /\ r <> 10000000000000000000.
Proof.
  split; [vm_compute; reflexivity|].
  eexists. split; [vm_compute; reflexivity|]. discriminate.
Qed.

(** C10, amended, at the cells ["3.7"] and ["-2.9"] beside a bad cell. *)
Lemma fractional_cells_truncate_witness :
  exists df' ints,
    preprocess_data iso_to_datetime
      [("videos_count", [VStr "3.7"; VStr "abc"; VStr "-2.9"])] default_threshold = Ok df'
    /\ get_column "videos_count" df' = Some (map VInt ints)
    /\ nth_error ints 0 = Some 3
    /\ nth_error ints 2 = Some (-2).
Proof.
  destruct (fractional_cells_truncate iso_to_datetime
              [("videos_count", [VStr "3.7"; VStr "abc"; VStr "-2.9"])] default_threshold
              [VStr "3.7"; VStr "abc"; VStr "-2.9"]
              iso_raises_exceptions_only eq_refl eq_refl eq_refl)
    as (df' & ints & Hp & Hg & Hd & _).
  exists df', ints. split; [exact Hp|]. split; [exact Hg|]. split.
  - exact (Hd 0%nat false "3" "7" eq_refl ltac:(discriminate) eq_refl eq_refl
             ltac:(simpl; lia)).
  - exact (Hd 2%nat true "2" "9" eq_refl ltac:(discriminate) eq_refl eq_refl
             ltac:(simpl; lia)).
Defined.

(** C7 at a file that does not exist. *)
Lemma load_data_never_propagates_witness :
  load_data scenario_read_csv "data/trending_by_time_1999.csv" = Ok empty_DataFrame
  /\ ingest_file scenario_read_csv iso_to_datetime "data" "trending_by_time_1999.csv"
       None false = Ok (None, false).
Proof.
  pose proof (load_data_never_propagates scenario_read_csv iso_to_datetime
                "data/trending_by_time_1999.csv") as (_ & H & _ & _ & _ & K).
  split; [exact (H eq_refl)|].
  exact (K "data" "trending_by_time_1999.csv" None false FileNotFoundError
           eq_refl eq_refl eq_refl).
Defined.

(** C8 as stated fails: the command line holds an option that [getopt]
    rejects, and the process ends with status 0. *)
Lemma invalid_option_ignored_by_main :
  getopt ["--bogus"] unixOptions gnuOptions = Raise GetoptError
  /\ snd (main scenario_read_csv iso_to_datetime ["prog"; "--bogus"] sample_world) = 0.
Proof. split; vm_compute; reflexivity. Qed.

(** C8, amended, at [-x] and [--bogus]. *)
Lemma invalid_option_exit_code_witness :
  parse_arguments ["prog"; "-x"] = Raise (SystemExit 2)
  /\ parse_arguments ["prog"; "--bogus"] = Raise (SystemExit 2).
Proof.
  pose proof (invalid_option_exit_code scenario_read_csv iso_to_datetime)
    as (_ & S & L & _).
  split.
  - exact (S "prog" "x"%char EmptyString [] eq_refl eq_refl).
  - exact (L "prog" "bogus" [] eq_refl).
Defined.

(** C1 as stated fails: the file named for 2020 holds a row dated in 2021;
    after the first run the table has a row of 2021, and the second run
    appends one more. *)
Lemma rerun_duplicates_misdated_rows :
  data_already_exist
    (fst (main misdated_read_csv iso_to_datetime ["prog"] sample_world)) (Some 2021) = true
  /\ count_year 2021 (fst (main misdated_read_csv iso_to_datetime ["prog"] sample_world))
     = 1%nat
  /\ count_year 2021
       (fst (main misdated_read_csv iso_to_datetime ["prog"]
               (with_stored sample_world
                  (fst (main misdated_read_csv iso_to_datetime ["prog"] sample_world)))))
     = 2%nat.
Proof. repeat split; vm_compute; reflexivity. Qed.

Lemma scenario_own_year_rows :
  own_year_rows scenario_read_csv iso_to_datetime
    (data_directory_of sample_world) (listing sample_world).
Proof.
  intros name y raw processed Hin Hm Hy Hl Hp He.
  cbn [listing sample_world] in Hin.
  destruct Hin as [<-|[<-|[]]].
  - exfalso. apply Hm. reflexivity.
  - vm_compute in Hy. injection Hy as <-.
    vm_compute in Hl. injection Hl as <-.
    vm_compute in Hp. injection Hp as <-.
    vm_compute. reflexivity.
Qed.

Lemma scenario_distinct_labels :
  distinct_labels scenario_read_csv (data_directory_of sample_world) (listing sample_world).
Proof.
  intros name raw Hin Hm Hl.
  cbn [listing sample_world] in Hin.
  destruct Hin as [<-|[<-|[]]].
  - exfalso. apply Hm. reflexivity.
  - vm_compute in Hl. injection Hl as <-. reflexivity.
Qed.

(** C1, amended, at the scenario: the second run leaves the two rows. *)
Lemma rerun_appends_nothing_witness :
  fst (main scenario_read_csv iso_to_datetime ["prog"]
         (with_stored sample_world
            (fst (main scenario_read_csv iso_to_datetime ["prog"] sample_world))))
  = fst (main scenario_read_csv iso_to_datetime ["prog"] sample_world).
Proof.
  exact (proj1 (proj2 (rerun_appends_nothing scenario_read_csv iso_to_datetime
                         ["prog"] sample_world)
                  scenario_own_year_rows scenario_distinct_labels)).
Defined.

(** ** Checks of the model on the specification's scenario *)

Example scenario_run :
  main scenario_read_csv iso_to_datetime ["prog"] sample_world
  = (Some {| tcols := ["trending_date"; "videos_count"];
             trows := [[("trending_date", VStr "2020-05-01"); ("videos_count", VInt 5)];
                       [("trending_date", VStr "2020-05-02"); ("videos_count", VInt 0)]] |},
     0).
Proof. vm_compute. reflexivity. Qed.

Example scenario_second_run_skips :
  ingest_file scenario_read_csv iso_to_datetime "data" "trending_by_time_2020.csv"
    (fst (main scenario_read_csv iso_to_datetime ["prog"] sample_world)) false
  = Ok (fst (main scenario_read_csv iso_to_datetime ["prog"] sample_world), false).
Proof. vm_compute. reflexivity. Qed.

Example parse_arguments_file :
  parse_arguments ["prog"; "-f"; "a.csv"] = Ok "a.csv"
  /\ parse_arguments ["prog"; "--file=b.csv"] = Ok "b.csv"
  /\ parse_arguments ["prog"; "--file"] = Raise (SystemExit 2).
Proof. repeat split; reflexivity. Qed.

(** A file whose labels clash cannot create the table; once the other file
    has created it, the next run appends the file's row, under the table's
    column and with the value of the first of the two labels. *)
Example label_clash_appended_on_rerun :
  fst (main clash_read_csv iso_to_datetime ["prog"] clash_world)
  = Some {| tcols := ["trending_date"; "views"];
            trows := [[("trending_date", VStr "2021-03-01"); ("views", VInt 3)]] |}
  /\ fst (main clash_read_csv iso_to_datetime ["prog"]
            (with_stored clash_world
               (fst (main clash_read_csv iso_to_datetime ["prog"] clash_world))))
     = Some {| tcols := ["trending_date"; "views"];
               trows := [[("trending_date", VStr "2021-03-01"); ("views", VInt 3)];
                         [("trending_date", VStr "2020-03-01"); ("views", VInt 1)]] |}.
Proof. split; vm_compute; reflexivity. Qed.

Example unlistable_directory_ends_the_run :
  main scenario_read_csv iso_to_datetime ["prog"] unlistable_world = (None, 1).
Proof. reflexivity. Qed.

(** An unsigned column wraps, a column with a text passes through floats. *)
Example coercion_of_unsigned_integers :
  coerce_int_column [VStr "18446744073709551615"; VStr "1"] = Ok [-1; 1]
  /\ coerce_int_column [VStr "18446744073709551615"; VStr "x"]
     = Ok [-9223372036854775808; 0]
  /\ coerce_int_column [VStr "18446744073709551615"; VStr "-1"]
     = Ok [-9223372036854775808; -1].
Proof. repeat split; vm_compute; reflexivity. Qed.

Example coercion_of_large_integers :
  coerce_int_column [VStr "9007199254740993"] = Ok [9007199254740993]
  /\ coerce_int_column [VStr "3"; VStr "inf"] = Raise ValueError.
Proof. split; vm_compute; reflexivity. Qed.

(** * Further properties of the code *)

(** ** The filter of the main loop and the year of a listed file *)

Lemma at_dollar_cases e :
  at_dollar e = true <-> e = EmptyString \/ e = String newline EmptyString.
Proof.
  split.
  - destruct e as [|c [|c' e]]; simpl; intros H; try discriminate; auto.
    apply Ascii.eqb_eq in H. subst. auto.
  - intros [->| ->]; reflexivity.
Qed.

(** X1.  The filter of the main loop, [re.match] of the pattern at a directory
    entry, accepts exactly the names [trending_by_time_<4 digits>.csv] and the
    same names followed by one newline. *)
Theorem filter_accepts_exactly (name : string) :
  (exists g, re_match name = Some g)
  <-> exists a b c d e,
        is_digit a = true /\ is_digit b = true /\ is_digit c = true /\ is_digit d = true
        /\ (e = EmptyString \/ e = String newline EmptyString)
        /\ name = ("trending_by_time_" ++ four a b c d ++ ".csv" ++ e)%string.
Proof.
  unfold re_match. split.
  - intros (g & H).
    apply pattern_here_inv in H as (a & b & c & d & e & _ & Ha & Hb & Hc & Hd & Hn & He).
    exists a, b, c, d, e. apply at_dollar_cases in He. auto 10.
  - intros (a & b & c & d & e & Ha & Hb & Hc & Hd & He & ->).
    exists (four a b c d). apply pattern_here_intro; auto.
    now apply at_dollar_cases.
Qed.

(** X2.  For every directory entry the filter accepts and every data
    directory, [extract_year_from_path] on the joined path returns the year
    the name writes, a number from 0 to 9999: the directory part is never
    taken for the year, and the loop's skip for a missing year is not
    reached. *)
Theorem listed_file_has_year (dir name g : string) :
  re_match name = Some g ->
  exists a b c d,
    g = four a b c d
    /\ extract_year_from_path (path_join dir name)
       = Ok (Some (1000 * digit_value a + 100 * digit_value b + 10 * digit_value c
                   + digit_value d))
    /\ 0 <= 1000 * digit_value a + 100 * digit_value b + 10 * digit_value c + digit_value d
       <= 9999.
Proof.
  intros H. unfold re_match in H.
  pose proof (pattern_here_inv _ _ H) as (a & b & c & d & e & -> & Ha & Hb & Hc & Hd & Hn & He).
  exists a, b, c, d. split; [reflexivity|].
  assert (Hs : starts_with "/" name = false) by (subst name; reflexivity).
  destruct (path_join_suffix dir name Hs) as (p & ->).
  split.
  - unfold extract_year_from_path. rewrite (re_search_app p _ _ H).
    rewrite py_int_four by assumption. reflexivity.
  - pose proof (digit_value_range _ Ha). pose proof (digit_value_range _ Hb).
    pose proof (digit_value_range _ Hc). pose proof (digit_value_range _ Hd). lia.
Qed.

(** X3.  When the strict pattern does not match and the stem of the file name
    ends in four digits, the fallback returns the number they write. *)
Theorem fallback_four_digits (file_path stem : string) (a b c d : ascii) :
  re_search file_path = None ->
  fallback_stem file_path = Ok stem ->
  last_chars 4 stem = four a b c d ->
  is_digit a = true -> is_digit b = true -> is_digit c = true -> is_digit d = true ->
  extract_year_from_path file_path
  = Ok (Some (1000 * digit_value a + 100 * digit_value b + 10 * digit_value c
              + digit_value d)).
Proof.
  intros Hs Hst Hl Ha Hb Hc Hd.
  unfold extract_year_from_path, fallback_year, fallback_text.
  rewrite Hs, Hst. cbn [bind]. rewrite Hl, py_int_four by assumption. reflexivity.
Qed.

(** ** parse_arguments *)

(** X4.  [parse_arguments] returns the value of the file option in each of
    its spellings: [-f v], [-fv], [--file v] and [--file=v], whatever the
    value (one that itself begins with a hyphen too, when it stands apart). *)
Theorem parse_arguments_file_value (prog v : string) (c : ascii) :
  parse_arguments [prog; "-f"; v] = Ok v
  /\ parse_arguments [prog; "--file"; v] = Ok v
  /\ parse_arguments [prog; ("--file=" ++ v)%string] = Ok v
  /\ parse_arguments [prog; String "-" (String "f" (String c v))] = Ok (String c v).
Proof.
  split; [reflexivity|]. split; [reflexivity|]. split.
  - unfold parse_arguments, getopt. cbn [tl getopt_loop].
    change ("--file=" ++ v)%string with ("--" ++ ("file=" ++ v))%string.
    assert (H1 : starts_with "-" ("--" ++ ("file=" ++ v)) = true) by reflexivity.
    assert (H2 : String.eqb ("--" ++ ("file=" ++ v)) "-" = false) by reflexivity.
    assert (H3 : String.eqb ("--" ++ ("file=" ++ v)) "--" = false) by reflexivity.
    assert (H4 : starts_with "--" ("--" ++ ("file=" ++ v)) = true) by reflexivity.
    rewrite H1, H2, H3, H4. cbn [andb negb]. rewrite substring_skip2.
    reflexivity.
  - unfold parse_arguments, getopt. cbn [tl getopt_loop].
    assert (H1 : starts_with "-" (String "-" (String "f" (String c v))) = true)
      by reflexivity.
    assert (H2 : String.eqb (String "-" (String "f" (String c v))) "-" = false)
      by reflexivity.
    assert (H3 : String.eqb (String "-" (String "f" (String c v))) "--" = false)
      by reflexivity.
    assert (H4 : starts_with "--" (String "-" (String "f" (String c v))) = false)
      by reflexivity.
    rewrite H1, H2, H3, H4. cbn [andb negb].
    assert (H5 : substring 1 (String.length (String "-" (String "f" (String c v))) - 1)
                   (String "-" (String "f" (String c v))) = String "f" (String c v)).
    { cbn [String.length]. rewrite Nat.sub_1_r. cbn [Nat.pred substring].
      now rewrite substring_full. }
    rewrite H5. reflexivity.
Qed.

Lemma short_has_arg_raise opt shortopts e :
  short_has_arg opt shortopts = Raise e -> e = GetoptError.
Proof.
  induction shortopts as [|c t IH]; simpl.
  - intros H. now inversion H.
  - destruct (Ascii.eqb opt c && negb (Ascii.eqb c ":")); [discriminate|exact IH].
Qed.

Lemma do_shorts_raise shortopts optstring next e :
  do_shorts shortopts optstring next = Raise e -> e = GetoptError.
Proof.
  induction optstring as [|opt rest IH]; simpl; [discriminate|].
  destruct (short_has_arg opt shortopts) as [[|]|e'] eqn:E; cbn [bind].
  - destruct rest; destruct next; intros H; now inversion H.
  - destruct (do_shorts shortopts rest next) as [r|e'] eqn:E2; cbn [bind];
      [discriminate|]. intros H. inversion H. subst. now apply IH.
  - intros H. inversion H. subst. eapply short_has_arg_raise; eauto.
Qed.

Lemma long_has_args_raise opt longopts e :
  long_has_args opt longopts = Raise e -> e = GetoptError.
Proof.
  unfold long_has_args.
  destruct (filter (starts_with opt) longopts) as [|u more]; [intros H; now inversion H|].
  destruct (mem_string opt (u :: more)); [discriminate|].
  destruct (mem_string (opt ++ "=") (u :: more)); [discriminate|].
  destruct more; [destruct (ends_with_eq u); discriminate|].
  intros H. now inversion H.
Qed.

Lemma do_longs_raise longopts opt next e :
  do_longs longopts opt next = Raise e -> e = GetoptError.
Proof.
  unfold do_longs. destruct (split_eq opt) as [opt1 optarg].
  destruct (long_has_args opt1 longopts) as [[has full]|e'] eqn:E; cbn [bind].
  - destruct has; destruct optarg; try destruct next; intros H; now inversion H.
  - intros H. inversion H. subst. eapply long_has_args_raise; eauto.
Qed.

Lemma getopt_loop_raise shortopts longopts args : forall skip e,
  getopt_loop shortopts longopts args skip = Raise e -> e = GetoptError.
Proof.
  induction args as [|a rest IH]; intros skip e; simpl; [discriminate|].
  destruct skip; [apply IH|].
  destruct (starts_with "-" a && negb (String.eqb a "-")); [|discriminate].
  destruct (String.eqb a "--"); [discriminate|].
  destruct (if starts_with "--" a
            then do_longs longopts (substring 2 (String.length a - 2) a) (hd_error rest)
            else do_shorts shortopts (substring 1 (String.length a - 1) a) (hd_error rest))
    as [r|e'] eqn:E; cbn [bind].
  - destruct (getopt_loop shortopts longopts rest (snd r)) as [r2|e'] eqn:E2; cbn [bind];
      [discriminate|]. intros H. inversion H. subst. eapply IH; eauto.
  - intros H. inversion H. subst.
    destruct (starts_with "--" a);
      [eapply do_longs_raise|eapply do_shorts_raise]; eauto.
Qed.

(** X5.  Whatever the command line, [parse_arguments] either returns a file
    path or ends the process with status 2: no other exception leaves it. *)
Theorem parse_arguments_returns_or_exits (argv : list string) :
  (exists file_path, parse_arguments argv = Ok file_path)
  \/ parse_arguments argv = Raise (SystemExit 2).
Proof.
  unfold parse_arguments.
  destruct (getopt (tl argv) unixOptions gnuOptions) as [[arguments values]|e] eqn:E.
  - left. eauto.
  - right. apply getopt_loop_raise in E. now subst.
Qed.

(** ** The integer coercion *)

Lemma classify_NInt_range v z : classify v = NInt z -> in_64bit z = true.
Proof.
  destruct v as [s|z0|f|t|]; cbn [classify]; try discriminate.
  - destruct s as [|c s]; [discriminate|].
    destruct (floatify (String c s)) as [[f [|]]|]; try discriminate.
    destruct (py_int (String c s)) as [z1|]; [|discriminate].
    destruct (in_64bit z1) eqn:E; [|discriminate]. intros H. inversion H. now subst.
  - destruct (in_64bit z0) eqn:E; [|discriminate]. intros H. inversion H. now subst.
Qed.

Lemma in_int64_64bit z : in_int64 z = true -> in_64bit z = true.
Proof.
  unfold in_int64, in_64bit, int64_min, int64_max, uint64_max.
  intros H. apply andb_true_iff in H as [H1 H2].
  apply Z.leb_le in H1, H2. apply andb_true_iff. split; apply Z.leb_le; lia.
Qed.

Lemma in_64bit_signed z : in_64bit z = true -> (int64_max <? z) = false -> in_int64 z = true.
Proof.
  unfold in_int64, in_64bit. intros H Hu.
  apply andb_true_iff in H as [H1 _]. rewrite H1.
  apply Z.ltb_ge in Hu. now apply Z.leb_le.
Qed.

Lemma wrap_int64_range z : in_64bit z = true -> in_int64 (wrap_int64 z) = true.
Proof.
  intros H. unfold wrap_int64.
  destruct (int64_max <? z) eqn:E; [|now apply in_64bit_signed].
  unfold in_64bit, in_int64, int64_min, int64_max, uint64_max in *.
  apply andb_true_iff in H as [_ H2]. apply Z.leb_le in H2. apply Z.ltb_lt in E.
  apply andb_true_iff. split; apply Z.leb_le; lia.
Qed.

Lemma cast_float_range f : in_int64 (cast_float f) = true.
Proof.
  destruct f as [q| | |]; try reflexivity.
  unfold cast_float, cast_int64. destruct (in_int64 (truncate q)) eqn:E; [exact E|reflexivity].
Qed.

Lemma coerce_of_integers ints :
  Forall (fun z => in_int64 z = true) ints ->
  coerce_int_column (map VInt ints) = Ok ints.
Proof.
  intros H. unfold coerce_int_column, to_numeric.
  assert (E : map classify (map VInt ints) = map NInt ints).
  { induction H as [|z l Hz Hl IH]; simpl; [reflexivity|].
    now rewrite (in_int64_64bit z Hz), IH. }
  rewrite E.
  assert (E1 : forallb is_NInt (map NInt ints) = true) by (clear; induction ints; auto).
  assert (E2 : map int_of (map NInt ints) = ints).
  { clear. induction ints as [|z l IH]; simpl; [reflexivity|]. now rewrite IH. }
  assert (E3 : existsb is_uint (map NInt ints) = false).
  { clear E E1 E2.
    induction H as [|z l Hz Hl IH]; simpl; [reflexivity|]. rewrite IH, orb_false_r.
    unfold in_int64 in Hz. apply andb_true_iff in Hz as [_ Hz].
    apply Z.leb_le in Hz. now apply Z.ltb_ge. }
  rewrite E1, E2, E3, andb_false_r. reflexivity.
Qed.

(** X6.  Every integer the coercion of a column produces fits 64 signed bits,
    and the coercion changes nothing on a column it has produced: coercing
    twice gives what coercing once gives. *)
Theorem coerce_range_and_fixed_point (col : list value) (ints : list Z) :
  coerce_int_column col = Ok ints ->
  Forall (fun z => in_int64 z = true) ints
  /\ coerce_int_column (map VInt ints) = Ok ints.
Proof.
  intros H.
  assert (R : Forall (fun z => in_int64 z = true) ints).
  { unfold coerce_int_column in H.
    destruct (to_numeric_cases col) as [(E & Eint & Eu)|[(E & Eint & _)|E]];
      rewrite E in H; cbn [fillna astype_int] in H.
    - inversion H; subst. clear H E.
      induction col as [|v col IH]; simpl in *; [constructor|].
      apply andb_true_iff in Eint as [Hv Hc].
      apply orb_false_iff in Eu as [Hu Hus]. constructor; [|now apply IH].
      destruct (classify v) as [z|f] eqn:Ev; [|discriminate].
      cbn [int_of]. apply in_64bit_signed; [|exact Hu].
      eapply classify_NInt_range; eauto.
    - inversion H; subst. clear H E.
      induction col as [|v col IH]; simpl in *; [constructor|].
      apply andb_true_iff in Eint as [Hv Hc]. constructor; [|now apply IH].
      destruct (classify v) as [z|f] eqn:Ev; [|discriminate].
      cbn [int_of]. apply wrap_int64_range. eapply classify_NInt_range; eauto.
    - destruct (forallb is_finite _); [|discriminate]. inversion H; subst.
      apply Forall_forall. intros z Hz. apply in_map_iff in Hz as (f & <- & _).
      apply cast_float_range. }
  split; [exact R|now apply coerce_of_integers].
Qed.

Lemma coerce_raise col e : coerce_int_column col = Raise e -> e = ValueError.
Proof.
  unfold coerce_int_column.
  destruct (to_numeric_cases col) as [(-> & _)|[(-> & _)| ->]];
    cbn [fillna astype_int]; [discriminate|discriminate|].
  destruct (forallb is_finite _); [discriminate|]. intros H. now inversion H.
Qed.

Lemma coerce_infinite col v :
  In v col ->
  classify v = NFloat PosInf \/ classify v = NFloat NegInf ->
  coerce_int_column col = Raise ValueError.
Proof.
  intros Hin Hv. unfold coerce_int_column, to_numeric.
  assert (E1 : forallb is_NInt (map classify col) = false).
  { destruct (forallb is_NInt (map classify col)) eqn:E; [|reflexivity].
    rewrite forallb_forall in E. specialize (E (classify v) (in_map _ _ _ Hin)).
    destruct Hv as [Hv|Hv]; rewrite Hv in E; discriminate. }
  rewrite E1. cbn [andb fillna astype_int].
  assert (E2 : forallb is_finite (map fillna0 (map to_float (map classify col))) = false).
  { destruct (forallb is_finite _) eqn:E; [|reflexivity].
    rewrite forallb_forall in E.
    specialize (E (fillna0 (to_float (classify v)))
                  (in_map _ _ _ (in_map _ _ _ (in_map _ _ _ Hin)))).
    destruct Hv as [Hv|Hv]; rewrite Hv in E; discriminate. }
  now rewrite E2.
Qed.

(** ** The persisted table *)



(** ** The normalizer, the loop and the run *)

Section Further.

Variable read_csv : string -> outcome DataFrame.
Variable to_datetime : list value -> outcome (list value).

(** X8.  [preprocess_data] keeps the frame of its table: the result has the
    same column labels in the same order, and every column other than
    [trending_date] and [videos_count] holds the cells it held. *)
Theorem preprocess_keeps_other_columns (df df' : DataFrame) (threshold : Q) :
  preprocess_data to_datetime df threshold = Ok df' ->
  columns df' = columns df
  /\ forall name, name <> "trending_date" -> name <> "videos_count" ->
       get_column name df' = get_column name df.
Proof.
  unfold preprocess_data. destruct (df_empty df); [intros H; inversion H; auto|].
  destruct (convert_date_column to_datetime df) as [df1|e] eqn:E1; cbn [bind];
    [|discriminate].
  intros E2.
  destruct (convert_date_column_frame to_datetime _ _ E1) as [C1 G1].
  destruct (convert_int_columns_frame _ _ E2) as [C2 G2].
  split; [congruence|].
  intros name Hd Hv. rewrite G2, G1; [reflexivity| |].
  - apply String.eqb_neq. intros H. apply Hd. now rewrite <- H.
  - apply String.eqb_neq. intros H. apply Hv. now rewrite <- H.
Qed.

(** X9.  A [videos_count] cell that stands for an infinity (the float, or the
    text [inf] or [infinity] with or without a sign) makes [preprocess_data]
    raise ValueError from the integer cast; nothing in the function catches
    it. *)
Theorem infinite_cell_raises (df : DataFrame) (threshold : Q) (col : list value) (v : value) :
  raises_exceptions_only to_datetime ->
  df_empty df = false ->
  get_column "videos_count" df = Some col ->
  In v col ->
  classify v = NFloat PosInf \/ classify v = NFloat NegInf ->
  preprocess_data to_datetime df threshold = Raise ValueError.
Proof.
  intros Hex He Hc Hin Hv. unfold preprocess_data. rewrite He.
  destruct (convert_date_column_other to_datetime df "videos_count" Hex eq_refl)
    as (df1 & -> & Hg).
  cbn [bind int_columns_to_convert convert_int_columns].
  rewrite Hg, Hc, (coerce_infinite col v Hin Hv). reflexivity.
Qed.

Lemma main_extends argv w : extends (stored w) (fst (main read_csv to_datetime argv w)).
Proof.
  rewrite main_database.
  destruct (create_db_engine w) as [engine|e] eqn:Ec; [|apply extends_refl].
  apply create_db_engine_Ok in Ec. subst engine.
  destruct (negb (data_dir_exists w) || listdir_fails w); [apply extends_refl|].
  destruct (ingest_files read_csv to_datetime (data_directory_of w) (listing w)
              (stored w) false) as [[db f] err] eqn:E.
  cbn [fst]. eapply ingest_files_extends; eauto.
Qed.


(** X11.  A year that [data_already_exist] finds before a run is found after
    it: the run never makes a file of an ingested year due again. *)
Theorem found_year_stays_found (argv : list string) (w : world) (year : option Z) :
  data_already_exist (stored w) year = true ->
  data_already_exist (fst (main read_csv to_datetime argv w)) year = true.
Proof. apply exist_mono, main_extends. Qed.

(** X12.  Directory entries that the filter rejects have no effect on the
    loop: it ends as on the directory without them. *)
Theorem rejected_entries_have_no_effect
  (dir : string) (names : list string) (engine : database) (flag : bool) :
  ingest_files read_csv to_datetime dir names engine flag
  = ingest_files read_csv to_datetime dir
      (filter (fun n => match re_match n with Some _ => true | None => false end) names)
      engine flag.
Proof.
  revert engine flag. induction names as [|n names IH]; intros engine flag;
    [reflexivity|].
  cbn [filter]. destruct (re_match n) as [g|] eqn:Eg.
  - cbn [ingest_files].
    destruct (ingest_file read_csv to_datetime dir n engine flag) as [[e' f']|e];
      [apply IH|reflexivity].
  - cbn [ingest_files]. unfold ingest_file at 1. rewrite Eg. apply IH.
Qed.

Lemma ingest_file_flag dir name s flag s' flag' :
  ingest_file read_csv to_datetime dir name s flag = Ok (s', flag') ->
  (s' = s /\ flag' = flag) \/ flag' = true.
Proof.
  unfold ingest_file.
  destruct (re_match name); [|intros H; inversion H; auto].
  destruct (extract_year_from_path _) as [[y|]|e]; cbn [bind];
    [|intros H; inversion H; auto|discriminate].
  destruct (data_already_exist s (Some y)); [intros H; inversion H; auto|].
  destruct (load_data _ _) as [raw|e]; cbn [bind]; [|discriminate].
  destruct (df_empty raw); cbn [negb]; [intros H; inversion H; auto|].
  destruct (preprocess_data _ _ _) as [pr|e]; cbn [bind]; [|discriminate].
  destruct (df_empty pr); cbn [negb]; intros H; inversion H; auto.
Qed.

Lemma ingest_files_flag dir names : forall s flag db err,
  ingest_files read_csv to_datetime dir names s flag = (db, false, err) ->
  flag = false /\ db = s.
Proof.
  induction names as [|n names IH]; intros s flag db err; cbn [ingest_files].
  - intros H; inversion H; auto.
  - destruct (ingest_file read_csv to_datetime dir n s flag) as [[s' f']|e] eqn:E.
    + intros H. destruct (IH _ _ _ _ H) as [-> ->].
      destruct (ingest_file_flag _ _ _ _ _ _ E) as [[-> ->]|Hf]; [auto|discriminate].
    + intros H; inversion H; auto.
Qed.

(** X13.  When the loop ends with the [processed_any_file] flag still unset,
    which is when the run reports that no new file was processed, the data
    base is as it was before the loop. *)
Theorem unset_flag_means_unchanged
  (dir : string) (names : list string) (engine db : database) (err : option exn) :
  ingest_files read_csv to_datetime dir names engine false = (db, false, err) ->
  db = engine.
Proof. intros H. now apply ingest_files_flag in H as [_ ->]. Qed.

Lemma preprocess_outcome df threshold :
  raises_exceptions_only to_datetime ->
  (exists df', preprocess_data to_datetime df threshold = Ok df')
  \/ preprocess_data to_datetime df threshold = Raise ValueError.
Proof.
  intros Hex. unfold preprocess_data. destruct (df_empty df); [eauto|].
  destruct (convert_date_column_other to_datetime df "videos_count" Hex eq_refl)
    as (df1 & -> & _).
  cbn [bind int_columns_to_convert convert_int_columns].
  destruct (get_column "videos_count" df1) as [col|]; [|eauto].
  destruct (coerce_int_column col) as [ints|e] eqn:E; cbn [bind]; [eauto|].
  right. apply coerce_raise in E. now subst.
Qed.

Lemma preprocess_ok df threshold :
  raises_exceptions_only to_datetime ->
  (forall col, get_column "videos_count" df = Some col -> no_infinite col = true) ->
  exists df', preprocess_data to_datetime df threshold = Ok df'.
Proof.
  intros Hex Hc. destruct (df_empty df) eqn:He.
  - unfold preprocess_data. rewrite He. eauto.
  - destruct (get_column "videos_count" df) as [col|] eqn:Eg.
    + destruct (preprocess_videos_count to_datetime df threshold col Hex He Eg (Hc _ eq_refl))
        as (df' & _ & H & _). eauto.
    + unfold preprocess_data. rewrite He.
      destruct (convert_date_column_other to_datetime df "videos_count" Hex eq_refl)
        as (df1 & -> & Hg).
      cbn [bind int_columns_to_convert convert_int_columns]. rewrite Hg, Eg. eauto.
Qed.

Lemma load_data_total path :
  (forall path e, read_csv path = Raise e -> is_Exception e = true) ->
  load_data read_csv path = Ok empty_DataFrame
  \/ exists df, read_csv path = Ok df /\ load_data read_csv path = Ok df.
Proof.
  intros Hr. destruct (read_csv path) as [df|e] eqn:E.
  - right. exists df. split; [reflexivity|]. unfold load_data. now rewrite E.
  - left. apply (load_data_caught read_csv path e E). eapply Hr; eauto.
Qed.

Lemma ingest_file_outcome dir name s flag :
  (forall path e, read_csv path = Raise e -> is_Exception e = true) ->
  raises_exceptions_only to_datetime ->
  (exists r, ingest_file read_csv to_datetime dir name s flag = Ok r)
  \/ ingest_file read_csv to_datetime dir name s flag = Raise ValueError.
Proof.
  intros Hr Ht. unfold ingest_file.
  destruct (re_match name) as [g|] eqn:Eg; [|eauto].
  destruct (re_match_extract dir name g Eg) as (y & _ & ->). cbn [bind].
  destruct (data_already_exist s (Some y)); [eauto|].
  destruct (load_data_total (path_join dir name) Hr) as [->|(df & _ & ->)]; cbn [bind].
  - left. eexists. reflexivity.
  - destruct (df_empty df); cbn [negb]; [eauto|].
    destruct (preprocess_outcome df default_threshold Ht) as [(df' & ->)| ->]; cbn [bind];
      [|auto].
    destruct (df_empty df'); cbn [negb]; eauto.
Qed.

Lemma ingest_file_clean dir name s flag :
  (forall path e, read_csv path = Raise e -> is_Exception e = true) ->
  raises_exceptions_only to_datetime ->
  (forall df col, read_csv (path_join dir name) = Ok df ->
     get_column "videos_count" df = Some col -> no_infinite col = true) ->
  exists r, ingest_file read_csv to_datetime dir name s flag = Ok r.
Proof.
  intros Hr Ht Hc. unfold ingest_file.
  destruct (re_match name) as [g|] eqn:Eg; [|eauto].
  destruct (re_match_extract dir name g Eg) as (y & _ & ->). cbn [bind].
  destruct (data_already_exist s (Some y)); [eauto|].
  destruct (load_data_total (path_join dir name) Hr) as [->|(df & Hdf & ->)]; cbn [bind].
  - eexists. reflexivity.
  - destruct (df_empty df); cbn [negb]; [eauto|].
    destruct (preprocess_ok df default_threshold Ht (fun col => Hc df col Hdf)) as (df' & ->).
    cbn [bind]. destruct (df_empty df'); cbn [negb]; eauto.
Qed.

Lemma ingest_files_outcome dir names : forall s flag,
  (forall path e, read_csv path = Raise e -> is_Exception e = true) ->
  raises_exceptions_only to_datetime ->
  snd (ingest_files read_csv to_datetime dir names s flag) = None
  \/ snd (ingest_files read_csv to_datetime dir names s flag) = Some ValueError.
Proof.
  induction names as [|n names IH]; intros s flag Hr Ht; cbn [ingest_files]; [auto|].
  destruct (ingest_file_outcome dir n s flag Hr Ht) as [([s' f'] & ->)| ->];
    [now apply IH|auto].
Qed.

Lemma ingest_files_clean dir names : forall s flag,
  (forall path e, read_csv path = Raise e -> is_Exception e = true) ->
  raises_exceptions_only to_datetime ->
  (forall name df col, In name names -> read_csv (path_join dir name) = Ok df ->
     get_column "videos_count" df = Some col -> no_infinite col = true) ->
  snd (ingest_files read_csv to_datetime dir names s flag) = None.
Proof.
  induction names as [|n names IH]; intros s flag Hr Ht Hc; cbn [ingest_files];
    [reflexivity|].
  destruct (ingest_file_clean dir n s flag Hr Ht) as ([s' f'] & ->).
  { intros df col. apply Hc. now left. }
  apply IH; auto. intros name df col Hin. apply Hc. now right.
Qed.

Lemma main_status argv w :
  snd (main read_csv to_datetime argv w)
  = match create_db_engine w with
    | Raise e => exit_status (Some e)
    | Ok engine =>
        if negb (data_dir_exists w) || listdir_fails w then 1
        else exit_status (snd (ingest_files read_csv to_datetime (data_directory_of w)
                                 (listing w) engine false))
    end.
Proof.
  unfold main. destruct (create_db_engine w); [|reflexivity].
  destruct (negb (data_dir_exists w)); [reflexivity|].
  destruct (listdir_fails w); [reflexivity|].
  destruct (ingest_files _ _ _ _ _ _) as [[db f] err]. reflexivity.
Qed.

Lemma create_db_engine_raise w e : create_db_engine w = Raise e -> e = SystemExit 1.
Proof.
  unfold create_db_engine.
  destruct (negb (db_dir_exists w) && makedirs_fails w); [intros H; now inversion H|].
  destruct (connect_fails w); [intros H; now inversion H|discriminate].
Qed.

(** X14.  When [read_csv] and [to_datetime] raise nothing outside Exception,
    the run ends with status 0 or 1; it ends with status 0 whenever the data
    base is reached, the data directory exists and can be listed, and no file
    has a [videos_count] cell that stands for an infinity, however many files
    are missing, unreadable, empty or already ingested. *)
Theorem run_exit_status (argv : list string) (w : world) :
  (forall path e, read_csv path = Raise e -> is_Exception e = true) ->
  raises_exceptions_only to_datetime ->
  (snd (main read_csv to_datetime argv w) = 0 \/ snd (main read_csv to_datetime argv w) = 1)
  /\ (forall engine,
        create_db_engine w = Ok engine ->
        data_dir_exists w = true ->
        listdir_fails w = false ->
        (forall name df col,
            In name (listing w) ->
            read_csv (path_join (data_directory_of w) name) = Ok df ->
            get_column "videos_count" df = Some col -> no_infinite col = true) ->
        snd (main read_csv to_datetime argv w) = 0).
Proof.
  intros Hr Ht. rewrite main_status. split.
  - destruct (create_db_engine w) as [engine|e] eqn:Ec.
    + destruct (negb (data_dir_exists w) || listdir_fails w); [auto|].
      destruct (ingest_files_outcome (data_directory_of w) (listing w) engine false Hr Ht)
        as [-> | ->]; auto.
    + apply create_db_engine_raise in Ec. subst. auto.
  - intros engine -> -> -> Hc. cbn [negb orb].
    now rewrite (ingest_files_clean (data_directory_of w) (listing w) engine false Hr Ht Hc).
Qed.

End Further.

(** * Instances of the further properties *)

Lemma listed_file_has_year_witness :
  exists a b c d,
    "2020" = four a b c d
    /\ extract_year_from_path (path_join "data" "trending_by_time_2020.csv")
       = Ok (Some (1000 * digit_value a + 100 * digit_value b + 10 * digit_value c
                   + digit_value d))
    /\ 0 <= 1000 * digit_value a + 100 * digit_value b + 10 * digit_value c + digit_value d
       <= 9999.
Proof.
  exact (listed_file_has_year "data" "trending_by_time_2020.csv" "2020" eq_refl).
Defined.

Lemma fallback_four_digits_witness :
  extract_year_from_path "archive/videos2019.old.csv" = Ok (Some 2019).
Proof.
  exact (fallback_four_digits "archive/videos2019.old.csv" "videos2019" "2" "0" "1" "9"
           eq_refl eq_refl eq_refl eq_refl eq_refl eq_refl eq_refl).
Defined.

Lemma coerce_range_and_fixed_point_witness :
  Forall (fun z => in_int64 z = true) [3; -2; 0]
  /\ coerce_int_column (map VInt [3; -2; 0]) = Ok [3; -2; 0].
Proof.
  exact (coerce_range_and_fixed_point [VStr "3.7"; VStr "-2.9"; VStr "x"] [3; -2; 0]
           eq_refl).
Defined.


Lemma preprocess_keeps_other_columns_witness :
  columns [("title", [VStr "a"]); ("trending_date", [VStr "2020-05-01"]);
           ("videos_count", [VInt 4])]
  = ["title"; "trending_date"; "videos_count"]
  /\ forall name, name <> "trending_date" -> name <> "videos_count" ->
       get_column name [("title", [VStr "a"]); ("trending_date", [VStr "2020-05-01"]);
                        ("videos_count", [VInt 4])]
       = get_column name [("title", [VStr "a"]);
                          ("trending_date", [VStr "2020-05-01T08:00:00"]);
                          ("videos_count", [VStr "4"])].
Proof.
  exact (preprocess_keeps_other_columns iso_to_datetime
           [("title", [VStr "a"]); ("trending_date", [VStr "2020-05-01T08:00:00"]);
            ("videos_count", [VStr "4"])]
           [("title", [VStr "a"]); ("trending_date", [VStr "2020-05-01"]);
            ("videos_count", [VInt 4])]
           default_threshold eq_refl).
Defined.

Lemma infinite_cell_raises_witness :
  preprocess_data iso_to_datetime [("videos_count", [VStr "3"; VStr "-Infinity"])]
    default_threshold = Raise ValueError.
Proof.
  exact (infinite_cell_raises iso_to_datetime
           [("videos_count", [VStr "3"; VStr "-Infinity"])] default_threshold
           [VStr "3"; VStr "-Infinity"] (VStr "-Infinity")
           iso_raises_exceptions_only eq_refl eq_refl (or_intror (or_introl eq_refl))
           (or_intror eq_refl)).
Defined.


Lemma found_year_stays_found_witness :
  data_already_exist
    (fst (main misdated_read_csv iso_to_datetime ["prog"]
            (with_stored sample_world
               (Some {| tcols := ["trending_date"; "videos_count"];
                        trows := [[("trending_date", VStr "2019-01-01");
                                   ("videos_count", VInt 1)]] |}))))
    (Some 2019) = true.
Proof.
  exact (found_year_stays_found misdated_read_csv iso_to_datetime ["prog"]
           (with_stored sample_world
              (Some {| tcols := ["trending_date"; "videos_count"];
                       trows := [[("trending_date", VStr "2019-01-01");
                                  ("videos_count", VInt 1)]] |}))
           (Some 2019) eq_refl).
Defined.

Lemma unset_flag_means_unchanged_witness :
  fst (fst (ingest_files scenario_read_csv iso_to_datetime "data"
              ["notes.txt"; "trending_by_time_1999.csv"] None false)) = None.
Proof.
  exact (unset_flag_means_unchanged scenario_read_csv iso_to_datetime "data"
           ["notes.txt"; "trending_by_time_1999.csv"] None
           (fst (fst (ingest_files scenario_read_csv iso_to_datetime "data"
                        ["notes.txt"; "trending_by_time_1999.csv"] None false)))
           None eq_refl).
Defined.

Lemma scenario_read_raises_exceptions_only :
  forall path e, scenario_read_csv path = Raise e -> is_Exception e = true.
Proof.
  intros path e. unfold scenario_read_csv.
  destruct (String.eqb path "data/trending_by_time_2020.csv"); [discriminate|].
  intros H. inversion H. reflexivity.
Qed.

Lemma scenario_files_clean :
  forall name df col,
    In name (listing sample_world) ->
    scenario_read_csv (path_join (data_directory_of sample_world) name) = Ok df ->
    get_column "videos_count" df = Some col -> no_infinite col = true.
Proof.
  intros name df col Hin Hr Hc. cbn [listing sample_world] in Hin.
  destruct Hin as [<-|[<-|[]]].
  - vm_compute in Hr. discriminate.
  - vm_compute in Hr. injection Hr as <-.
    vm_compute in Hc. injection Hc as <-. reflexivity.
Qed.

Lemma run_exit_status_witness :
  snd (main scenario_read_csv iso_to_datetime ["prog"] sample_world) = 0.
Proof.
  exact (proj2 (run_exit_status scenario_read_csv iso_to_datetime ["prog"] sample_world
                  scenario_read_raises_exceptions_only iso_raises_exceptions_only)
           None eq_refl eq_refl eq_refl scenario_files_clean).
Defined.
